(** * ConseilJS: operation submission pipeline and wallet codec

    A shallow embedding of [TezosOperations] (signing, validation of the
    dry-run result, injection, the five convenience wrappers) and of
    [TezosWallet] (save / load / unlock), with the properties the
    specification states about them.

    Conventions of the embedding.
    - JavaScript values that the code handles without a static type (the
      node's apply result, the operation contents it builds) are values of
      [JsVal].
    - A JavaScript [number] is modelled by an integer of [Z] that stands
      for a finite, integer-valued IEEE-754 double. Addition rounds to the
      nearest double ([Number_add]) and [Number_toString] prints the
      shortest digits that read back as the same double, in exponent form
      from 1e21 on. On the safe integers ([isSafeInteger]) these are exact
      integer addition and plain decimal digits. Fractions, NaN and the
      infinities are not represented.
    - A [Buffer] is a [list byte].
    - A statement that can throw returns a [Completion]; an [async]
      function is a state transformer over the world it talks to that
      returns a [Completion] (a rejected promise is a thrown exception at
      the [await]). *)

From Stdlib Require Import ZArith List String Ascii Bool Lia.
From Stdlib.Strings Require Import Byte.
From Stdlib Require Import DecimalString DecimalZ.
From stdpp Require Import base gmap strings.

Import ListNotations.
Local Open Scope string_scope.
Local Open Scope Z_scope.

(** ** Exceptions and completions *)

(** What a JavaScript statement can throw here: the engine's [TypeError]
    (property read on [null]/[undefined], iteration of a non-iterable), an
    [Error] built by the code with its message, and a failure raised inside
    a collaborator (remote node, crypto, file system), kept opaque. *)
Inductive Exn : Type :=
| TypeError
| Error (message : string)
| External (what : string).

Inductive Completion (A : Type) : Type :=
| Normal (a : A)
| Throw (e : Exn).
Arguments Normal {A} a.
Arguments Throw {A} e.

Definition bindC {A B} (c : Completion A) (k : A -> Completion B) : Completion B :=
  match c with
  | Normal a => k a
  | Throw e => Throw e
  end.

Notation "'try' x <- c ; k" := (bindC c (fun x => k))
  (at level 10, x name, c at level 100, k at level 200).

(** ** JavaScript values *)

#[local] Set Warnings "-register-all".

Inductive JsVal : Type :=
| JUndefined
| JNull
| JBool (b : bool)
| JNum (n : Z)
| JStr (s : string)
| JArr (items : list JsVal)
| JObj (props : list (string * JsVal)).

Definition Buffer := list byte.

(** [Number.isSafeInteger]. *)
Definition isSafeInteger (n : Z) : Prop := - (2 ^ 53 - 1) <= n <= 2 ^ 53 - 1.

(** The decimal digits of an integer, with a minus sign for negatives. *)
Definition decimalDigits (n : Z) : string :=
  NilZero.string_of_int (Z.to_int n).

(** The double nearest to the integer [z], ties to the even significand
    (53 bits). Magnitudes are taken below 2^1024. *)
Definition roundToDouble (z : Z) : Z :=
  let a := Z.abs z in
  if a <? 2 ^ 53 then z
  else
    let ulp := 2 ^ (Z.log2 a - 52) in
    let q := a / ulp in
    let r := a mod ulp in
    let q' := if 2 * r <? ulp then q
              else if ulp <? 2 * r then q + 1
              else if Z.even q then q else q + 1 in
    Z.sgn z * (q' * ulp).

(** [x + y] on numbers. *)
Definition Number_add (x y : Z) : Z := roundToDouble (x + y).

(** Whether the integer [v] reads back as the double whose rounding
    interval, in quarters, is [lo4 .. hi4]; the ends belong to it when the
    double's significand is even. *)
Definition readsBackAs (lo4 hi4 : Z) (closed : bool) (v : Z) : bool :=
  if closed then (lo4 <=? 4 * v) && (4 * v <=? hi4)
  else (lo4 <? 4 * v) && (4 * v <? hi4).

(** The integer with the fewest significant digits that reads back as the
    double [a]: multiples of 10^p are tried for p going down to 0, the
    nearer of the two neighbours of [a] winning. *)
Fixpoint shortestFrom (a lo4 hi4 : Z) (closed : bool) (p : nat) : Z :=
  let pw := 10 ^ Z.of_nat p in
  let below := a / pw * pw in
  let above := below + pw in
  let okBelow := (0 <? below) && readsBackAs lo4 hi4 closed below in
  let okAbove := readsBackAs lo4 hi4 closed above in
  let nearer :=
    if a - below <? above - a then below
    else if above - a <? a - below then above
    else if Z.even (a / pw) then below else above in
  if okBelow && okAbove then nearer
  else if okBelow then below
  else if okAbove then above
  else match p with
       | O => a
       | S p' => shortestFrom a lo4 hi4 closed p'
       end.

Definition shortestDigits (a : Z) : Z :=
  let e := Z.log2 a in
  let ulp := 2 ^ (e - 52) in
  let closed := Z.even (a / ulp) in
  let lo4 := 4 * a - (if a =? 2 ^ e then ulp else 2 * ulp) in
  let hi4 := 4 * a + 2 * ulp in
  shortestFrom a lo4 hi4 closed (Z.to_nat e).

Fixpoint stripTrailingZeros (s : string) : string :=
  match s with
  | EmptyString => EmptyString
  | String c rest =>
      match stripTrailingZeros rest with
      | EmptyString => if Ascii.eqb c "0" then EmptyString else String c EmptyString
      | rest' => String c rest'
      end
  end.

(** The digits [ds] of a positive integer in the form of
    [Number.prototype.toString]: as they are up to 21 digits, then
    [d.ddde+n]. *)
Definition renderDigits (ds : string) : string :=
  let n := String.length ds in
  if (n <=? 21)%nat then ds
  else
    let exponent := "e+" +:+ decimalDigits (Z.of_nat n - 1) in
    match stripTrailingZeros ds with
    | String d EmptyString => String d exponent
    | String d more => String d ("." +:+ more +:+ exponent)
    | EmptyString => ds
    end.

(** [n.toString()] for an integer-valued number. Below 2^53 in magnitude
    the shortest digits are the decimal digits themselves. *)
Definition Number_toString (n : Z) : string :=
  if Z.abs n <? 2 ^ 53 then decimalDigits n
  else
    let body := renderDigits (decimalDigits (shortestDigits (Z.abs n))) in
    if n <? 0 then String "-" body else body.

(** Reading back a decimal numeral; used to state what "decimal string of
    n" means independently of [Number_toString]. *)
Definition decimal_value (s : string) : option Z :=
  option_map Z.of_int (NilZero.int_of_string s).

(** Own-property lookup in an object's property table. *)
Fixpoint lookupProp (name : string) (props : list (string * JsVal)) : JsVal :=
  match props with
  | [] => JUndefined
  | (k, v) :: rest => if String.eqb name k then v else lookupProp name rest
  end.

(** [v.name] for a property name that no built-in prototype defines
    ([kind], [id], [contents], [counter] ...): a [TypeError] on [null] and
    [undefined], the own property on an object, [undefined] elsewhere. *)
Definition getProp (v : JsVal) (name : string) : Completion JsVal :=
  match v with
  | JUndefined | JNull => Throw TypeError
  | JObj props => Normal (lookupProp name props)
  | _ => Normal JUndefined
  end.

(** [v[0]]. *)
Definition getIndex0 (v : JsVal) : Completion JsVal :=
  match v with
  | JUndefined | JNull => Throw TypeError
  | JArr items => Normal (nth 0 items JUndefined)
  | JObj props => Normal (lookupProp "0" props)
  | JStr (String c _) => Normal (JStr (String c EmptyString))
  | _ => Normal JUndefined
  end.

(** [v != null] (loose inequality: [undefined] and [null] are both equal
    to [null], nothing else is). *)
Definition notNull (v : JsVal) : bool :=
  match v with
  | JUndefined | JNull => false
  | _ => true
  end.

(** [new Set(strings).has(v)]: SameValueZero against string members. *)
Definition Set_has (members : list string) (v : JsVal) : bool :=
  match v with
  | JStr s => existsb (String.eqb s) members
  | _ => false
  end.

Fixpoint join (sep : string) (parts : list string) : string :=
  match parts with
  | [] => ""
  | [p] => p
  | p :: rest => p +:+ sep +:+ join sep rest
  end.

(** The string conversion a template literal applies to [${v}]. *)
Fixpoint ToString (v : JsVal) : string :=
  match v with
  | JUndefined => "undefined"
  | JNull => "null"
  | JBool true => "true"
  | JBool false => "false"
  | JNum n => Number_toString n
  | JStr s => s
  | JArr items =>
      join "," (map (fun x => match x with
                              | JUndefined | JNull => ""
                              | _ => ToString x
                              end) items)
  | JObj _ => "[object Object]"
  end.

(** The values a [for ... of] loop visits: the elements of an array, the
    characters of a string; anything else in [JsVal] is not iterable. *)
Definition iterate (v : JsVal) : Completion (list JsVal) :=
  match v with
  | JArr items => Normal items
  | JStr s => Normal (map (fun c => JStr (String c EmptyString)) (list_ascii_of_string s))
  | _ => Throw TypeError
  end.

(** ** ResultValidator: [checkAppliedOperationResults] *)

Definition validAppliedKinds : list string :=
  ["activate_account"; "reveal"; "transaction"; "origination"; "delegation"].

Definition couldNotApply (id : JsVal) : Exn :=
  Error ("Could not apply operation because: " +:+ ToString id).

(** The body of the [for (const op of firstAppliedOp.contents)] loop. *)
Fixpoint checkContents (ops : list JsVal) : Completion unit :=
  match ops with
  | [] => Normal tt
  | op :: rest =>
      try kind <- getProp op "kind";
      if negb (Set_has validAppliedKinds kind)
      then (try id <- getProp op "id"; Throw (couldNotApply id))
      else checkContents rest
  end.

Definition checkAppliedOperationResults (appliedOp : JsVal) : Completion unit :=
  try firstAppliedOp <- getIndex0 appliedOp;
  try kind <- getProp firstAppliedOp "kind";
  if notNull kind && negb (Set_has validAppliedKinds kind)
  then (try id <- getProp firstAppliedOp "id"; Throw (couldNotApply id))
  else
    try contents <- getProp firstAppliedOp "contents";
    try ops <- iterate contents;
    checkContents ops.

(** ** Hexadecimal text ([sodium.from_hex], [sodium.to_hex]) *)

Definition hexDigit (n : N) : ascii :=
  match n with
  | 0 => "0" | 1 => "1" | 2 => "2" | 3 => "3" | 4 => "4" | 5 => "5"
  | 6 => "6" | 7 => "7" | 8 => "8" | 9 => "9" | 10 => "a" | 11 => "b"
  | 12 => "c" | 13 => "d" | 14 => "e" | _ => "f"
  end%N%char.

Definition hexValue (c : ascii) : option N :=
  let n := N_of_ascii c in
  if ((48 <=? n) && (n <=? 57))%N then Some (n - 48)%N
  else if ((97 <=? n) && (n <=? 102))%N then Some (n - 87)%N
  else if ((65 <=? n) && (n <=? 70))%N then Some (n - 55)%N
  else None.

Definition byte_of_nibbles (hi lo : N) : byte :=
  byte_of_ascii (ascii_of_N (16 * hi + lo)).

Fixpoint allHexDigits (s : string) : bool :=
  match s with
  | EmptyString => true
  | String c rest =>
      match hexValue c with
      | Some _ => allHexDigits rest
      | None => false
      end
  end.

(** The library's [is_hex]: the text matches [/^[0-9a-f]+$/i], so it is
    not empty, and its length is even. *)
Definition is_hex (s : string) : bool :=
  match s with
  | EmptyString => false
  | _ => allHexDigits s && Nat.even (String.length s)
  end.

Definition nibble (c : ascii) : N :=
  match hexValue c with
  | Some n => n
  | None => 0
  end.

(** The byte of every two digits, [parseInt(str.substr(i, 2), 16)]. *)
Fixpoint hexBytes (s : string) : Buffer :=
  match s with
  | String h (String l rest) => byte_of_nibbles (nibble h) (nibble l) :: hexBytes rest
  | _ => []
  end.

(** [sodium.from_hex] of libsodium-wrappers 0.5, the release whose calls
    are synchronous as the program uses them: a [TypeError] unless the
    text [is_hex]; the empty text is refused too. *)
Definition from_hex (s : string) : Completion Buffer :=
  if is_hex s then Normal (hexBytes s) else Throw TypeError.

(** [sodium.to_hex]: lower-case digits, most significant nibble first. *)
Fixpoint to_hex (b : Buffer) : string :=
  match b with
  | [] => EmptyString
  | x :: rest =>
      let n := Byte.to_N x in
      String (hexDigit (n / 16)) (String (hexDigit (n mod 16)) (to_hex rest))
  end.

(** ** Asynchronous functions

    An [async] function over a world [S]: it runs to a completion and
    leaves the world in a new state. [await] sequences two of them; a
    rejection skips the rest. *)

Definition Async (S A : Type) : Type := S -> Completion A * S.

Definition resolve {S A} (a : A) : Async S A := fun s => (Normal a, s).

Definition sync {S A} (c : Completion A) : Async S A := fun s => (c, s).

Definition bindA {S A B} (m : Async S A) (k : A -> Async S B) : Async S B :=
  fun s =>
    match m s with
    | (Normal a, s') => k a s'
    | (Throw e, s') => (Throw e, s')
    end.

Notation "'await' x <- m ; k" := (bindA m (fun x => k))
  (at level 10, x name, m at level 100, k at level 200).
Notation "'const' x <- c ; k" := (bindA (sync c) (fun x => k))
  (at level 10, x name, c at level 100, k at level 200).

(** ** Data model *)

Record KeyStore : Type := {
  publicKey : string;
  privateKey : string;
  publicKeyHash : string
}.

(** Output of operation signing. *)
Record SignedOperationGroup : Type := {
  bytes : Buffer;
  signature : string
}.

(** Result of a successfully sent operation. *)
Record OperationResult : Type := {
  results : JsVal;
  operationGroupID : string
}.

Module TezosTypes.

Record BlockHeader : Type := {
  level : Z;
  proto : Z;
  predecessor : string;
  timestamp : string;
  validation_pass : Z;
  operations_hash : string;
  fitness : list string;
  context : string;
  priority : Z;
  proof_of_work_nonce : string;
  signature : string
}.

Record BlockMetadata : Type := {
  protocol : string;
  chain_id : string;
  hash : string;
  metadata : BlockHeader
}.

Record AccountDelegate : Type := {
  setable : bool;
  value : string
}.

Record Account : Type := {
  manager : string;
  balance : Z;
  spendable : bool;
  delegate : AccountDelegate;
  script : string;
  counter : Z
}.

End TezosTypes.

(** ** Collaborators *)

(** The crypto and encoding helpers of [utils/CryptoUtils], taken as an
    interface. [generateSaltForPwHash] draws from a random source whose
    state is threaded explicitly. *)
Class CryptoUtils : Type := {
  base58CheckEncode : Buffer -> string -> string;
  base58CheckDecode : string -> string -> Completion Buffer;
  generateSaltForPwHash : N -> Buffer * N;
  encryptMessage : string -> string -> Buffer -> Buffer;
  decryptMessage : Buffer -> string -> Buffer -> Completion string;
  getKeysFromMnemonicAndPassphrase : string -> string -> Completion KeyStore
}.

(** The two libsodium primitives used for signing. *)
Class Sodium : Type := {
  crypto_generichash : nat -> Buffer -> Buffer;
  crypto_sign_detached : Buffer -> Buffer -> Completion Buffer
}.

(** The remote node behind [TezosNodeQuery]. Every RPC is recorded in the
    world's call log before its answer is delivered. *)
Module TezosNode.

Inductive Call : Type :=
| GetBlockHead (network : string)
| GetAccountForBlock (network blockHash accountID : string)
| ForgeOperation (network : string) (payload : JsVal)
| ApplyOperation (network : string) (payload : JsVal)
| InjectOperation (network : string) (payload : string).

Record Remote (R : Type) : Type := {
  onGetBlockHead : string -> R -> Completion TezosTypes.BlockMetadata * R;
  onGetAccountForBlock : string -> string -> string -> R -> Completion TezosTypes.Account * R;
  onForgeOperation : string -> JsVal -> R -> Completion string * R;
  onApplyOperation : string -> JsVal -> R -> Completion JsVal * R;
  onInjectOperation : string -> string -> R -> Completion string * R
}.
Arguments onGetBlockHead {R}.
Arguments onGetAccountForBlock {R}.
Arguments onForgeOperation {R}.
Arguments onApplyOperation {R}.
Arguments onInjectOperation {R}.

Record World (R : Type) : Type := {
  remote : R;
  calls : list Call
}.
Arguments remote {R}.
Arguments calls {R}.
Arguments Build_World {R}.

Definition rpc {R A} (c : Call) (handler : R -> Completion A * R) : Async (World R) A :=
  fun w =>
    let (answer, r') := handler (remote w) in
    (answer, {| remote := r'; calls := calls w ++ [c] |}).

Section Client.
Context {R : Type} (node : Remote R).

Definition getBlockHead (network : string) :=
  rpc (GetBlockHead network) (onGetBlockHead node network).

Definition getAccountForBlock (network blockHash accountID : string) :=
  rpc (GetAccountForBlock network blockHash accountID)
      (onGetAccountForBlock node network blockHash accountID).

Definition forgeOperation (network : string) (payload : JsVal) :=
  rpc (ForgeOperation network payload) (onForgeOperation node network payload).

Definition applyOperation (network : string) (payload : JsVal) :=
  rpc (ApplyOperation network payload) (onApplyOperation node network payload).

Definition injectOperation (network : string) (payload : string) :=
  rpc (InjectOperation network payload) (onInjectOperation node network payload).
End Client.

Definition isInject (c : Call) : bool :=
  match c with
  | InjectOperation _ _ => true
  | _ => false
  end.


Definition isBlockHeadFetch (c : Call) : bool :=
  match c with
  | GetBlockHead _ => true
  | _ => false
  end.

End TezosNode.

(** ** TezosOperations *)

Module TezosOperations.

Section Operations.
Context {CU : CryptoUtils} {NaCl : Sodium}.
Context {R : Type} (node : TezosNode.Remote R).

(** Signs a forged operation. *)
Definition signOperationGroup (forgedOperation : string) (keyStore : KeyStore)
  : Completion SignedOperationGroup :=
  let watermark := "03" in
  try watermarkedForgedOperationBytes <- from_hex (watermark +:+ forgedOperation);
  try privateKeyBytes <- base58CheckDecode (privateKey keyStore) "edsk";
  let hashedWatermarkedOpBytes :=
    crypto_generichash 32 watermarkedForgedOperationBytes in
  try opSignature <- crypto_sign_detached hashedWatermarkedOpBytes privateKeyBytes;
  let hexSignature := base58CheckEncode opSignature "edsig" in
  try forgedBytes <- from_hex forgedOperation;
  let signedOpBytes := (forgedBytes ++ opSignature)%list in
  Normal {| bytes := signedOpBytes; signature := hexSignature |}.

(** Computes the ID of an operation group. *)
Definition computeOperationHash (signedOpGroup : SignedOperationGroup) : string :=
  let hash := crypto_generichash 32 (bytes signedOpGroup) in
  base58CheckEncode hash "op".

Definition forgeOperations (network : string)
    (blockHead : TezosTypes.BlockMetadata) (operations : list JsVal)
  : Async (TezosNode.World R) string :=
  let payload := JObj [("branch", JStr (TezosTypes.hash blockHead));
                       ("contents", JArr operations)] in
  TezosNode.forgeOperation node network payload.

Definition applyOperation (network : string)
    (blockHead : TezosTypes.BlockMetadata) (operations : list JsVal)
    (operationGroupHash forgedOperationGroup : string)
    (signedOpGroup : SignedOperationGroup)
  : Async (TezosNode.World R) JsVal :=
  let payload := JArr [JObj [("protocol", JStr (TezosTypes.protocol blockHead));
                             ("branch", JStr (TezosTypes.hash blockHead));
                             ("contents", JArr operations);
                             ("signature", JStr (signature signedOpGroup))]] in
  TezosNode.applyOperation node network payload.

Definition injectOperation (network : string) (signedOpGroup : SignedOperationGroup)
  : Async (TezosNode.World R) string :=
  let payload := to_hex (bytes signedOpGroup) in
  TezosNode.injectOperation node network payload.

(** Master function for creating and sending all supported types of
    operations. *)
Definition sendOperation (network : string) (operations : list JsVal)
    (keyStore : KeyStore) : Async (TezosNode.World R) OperationResult :=
  await blockHead <- TezosNode.getBlockHead node network;
  await forgedOperationGroup <- forgeOperations network blockHead operations;
  const signedOpGroup <- signOperationGroup forgedOperationGroup keyStore;
  let operationGroupHash := computeOperationHash signedOpGroup in
  await appliedOp <- applyOperation network blockHead operations
                       operationGroupHash forgedOperationGroup signedOpGroup;
  const checked <- checkAppliedOperationResults appliedOp;
  await injectedOperation <- injectOperation network signedOpGroup;
  const first <- getIndex0 appliedOp;
  resolve {| results := first; operationGroupID := injectedOperation |}.

(** [Number(x)] of a number is that number. *)
Definition Number (x : Z) : Z := x.

Definition sendTransactionOperation (network : string) (keyStore : KeyStore)
    (to : string) (amount fee : Z) : Async (TezosNode.World R) OperationResult :=
  await blockHead <- TezosNode.getBlockHead node network;
  await account <- TezosNode.getAccountForBlock node network
                     (TezosTypes.hash blockHead) (publicKeyHash keyStore);
  let transaction :=
    JObj [("destination", JStr to);
          ("amount", JStr (Number_toString amount));
          ("storage_limit", JStr "0");
          ("gas_limit", JStr "120");
          ("counter", JStr (Number_toString (Number_add (Number (TezosTypes.counter account)) 1)));
          ("fee", JStr (Number_toString fee));
          ("source", JStr (publicKeyHash keyStore));
          ("kind", JStr "transaction");
          ("parameters", JObj [("prim", JStr "Unit"); ("args", JArr [])])] in
  let operations := [transaction] in
  sendOperation network operations keyStore.

Definition sendDelegationOperation (network : string) (keyStore : KeyStore)
    (delegate : string) (fee : Z) : Async (TezosNode.World R) OperationResult :=
  await blockHead <- TezosNode.getBlockHead node network;
  await account <- TezosNode.getAccountForBlock node network
                     (TezosTypes.hash blockHead) (publicKeyHash keyStore);
  let delegation :=
    JObj [("kind", JStr "delegation");
          ("source", JStr (publicKeyHash keyStore));
          ("fee", JStr (Number_toString fee));
          ("counter", JStr (Number_toString (Number_add (Number (TezosTypes.counter account)) 1)));
          ("storage_limit", JStr "0");
          ("gas_limit", JStr "120");
          ("delegate", JStr delegate)] in
  let operations := [delegation] in
  sendOperation network operations keyStore.

Definition sendOriginationOperation (network : string) (keyStore : KeyStore)
    (amount : Z) (delegate : string) (spendable delegatable : bool) (fee : Z)
  : Async (TezosNode.World R) OperationResult :=
  await blockHead <- TezosNode.getBlockHead node network;
  await account <- TezosNode.getAccountForBlock node network
                     (TezosTypes.hash blockHead) (publicKeyHash keyStore);
  let origination :=
    JObj [("kind", JStr "origination");
          ("source", JStr (publicKeyHash keyStore));
          ("fee", JStr (Number_toString fee));
          ("counter", JStr (Number_toString (Number_add (Number (TezosTypes.counter account)) 1)));
          ("gas_limit", JStr "120");
          ("storage_limit", JStr "0");
          ("managerPubkey", JStr (publicKeyHash keyStore));
          ("balance", JStr (Number_toString amount));
          ("spendable", JBool spendable);
          ("delegatable", JBool delegatable);
          ("delegate", JStr delegate)] in
  let operations := [origination] in
  sendOperation network operations keyStore.

Definition sendKeyRevealOperation (network : string) (keyStore : KeyStore)
    (fee : Z) : Async (TezosNode.World R) OperationResult :=
  await blockHead <- TezosNode.getBlockHead node network;
  await account <- TezosNode.getAccountForBlock node network
                     (TezosTypes.hash blockHead) (publicKeyHash keyStore);
  let revealOp :=
    JObj [("kind", JStr "reveal");
          ("source", JStr (publicKeyHash keyStore));
          ("fee", JStr (Number_toString fee));
          ("counter", JStr (Number_toString (Number_add (Number (TezosTypes.counter account)) 1)));
          ("gas_limit", JStr "120");
          ("storage_limit", JStr "0");
          ("public_key", JStr (publicKey keyStore))] in
  let operations := [revealOp] in
  sendOperation network operations keyStore.


End Operations.

End TezosOperations.

(** ** TezosWallet *)

Record Wallet : Type := {
  identities : list KeyStore
}.

Record EncryptedWalletVersionOne : Type := {
  version : string;
  salt : string;
  ciphertext : string;
  kdf : string
}.

(** [JSON.stringify] and [JSON.parse] at the two types the wallet code uses
    them at. A parse that returns normally stands for a text that is JSON
    of the shape the cast names, a record of four strings or an array of
    key stores. The casts [<KeyStore[]>] and [<EncryptedWalletVersionOne>]
    of the source are unchecked: on a JSON text of another shape the
    program goes on with missing fields, where this parse throws. The
    properties below speak of the texts that parse. *)
Class JSON : Type := {
  stringify_identities : list KeyStore -> string;
  parse_identities : string -> Completion (list KeyStore);
  stringify_wallet : EncryptedWalletVersionOne -> string;
  parse_wallet : string -> Completion EncryptedWalletVersionOne
}.

Definition DecryptionFailure : Exn := External "DecryptionFailure".

(** Modelled from the spec: [utils/CryptoUtils] is not part of the sources
    at hand. The specification gives its contract: for all byte sequences
    and prefix tags [decode (encode b p) p = b]; [encrypt]/[decrypt] are an
    authenticated pair keyed by (password, salt), so decrypting under the
    password and salt used to encrypt returns the plaintext, and a wrong
    password raises a decryption error instead of returning a plaintext. *)
Class CryptoUtilsLaws (CU : CryptoUtils) : Prop := {
  decode_encode : forall (b : Buffer) (p : string),
    base58CheckDecode (base58CheckEncode b p) p = Normal b;
  decrypt_encrypt : forall (m p : string) (s : Buffer),
    decryptMessage (encryptMessage m p s) p s = Normal m;
  decrypt_wrong_passphrase : forall (m p q : string) (s : Buffer),
    q <> p -> decryptMessage (encryptMessage m p s) q s = Throw DecryptionFailure
}.

(** [JSON.parse (JSON.stringify x)] gives [x] back for records of strings
    and arrays of them. *)
Class JSONLaws (J : JSON) : Prop := {
  parse_stringify_identities : forall ids,
    parse_identities (stringify_identities ids) = Normal ids;
  parse_stringify_wallet : forall w,
    parse_wallet (stringify_wallet w) = Normal w
}.

(** The machine the wallet code runs on: the files by name, the paths that
    refuse to be written, and the state of the random source. *)
Record Host : Type := {
  files : gmap string string;
  locked : gset string;
  entropy : N
}.

Module fsPromises.

Definition writeFile (filename data : string) : Async Host unit :=
  fun h =>
    if decide (filename ∈ locked h)
    then (Throw (External "EACCES"), h)
    else (Normal tt,
          {| files := <[filename := data]> (files h);
             locked := locked h;
             entropy := entropy h |}).

Definition readFile (filename : string) : Async Host string :=
  fun h =>
    match files h !! filename with
    | Some data => (Normal data, h)
    | None => (Throw (External "ENOENT"), h)
    end.

End fsPromises.

Module TezosWallet.

Section Wallet.
Context {CU : CryptoUtils} {J : JSON}.

(** [CryptoUtils.generateSaltForPwHash()] on the host's random source. *)
Definition drawSalt : Async Host Buffer :=
  fun h =>
    let (fresh, e') := generateSaltForPwHash (entropy h) in
    (Normal fresh, {| files := files h; locked := locked h; entropy := e' |}).

(** Loads a wallet from a given file. *)
Definition loadWallet (filename passphrase : string) : Async Host Wallet :=
  await data <- fsPromises.readFile filename;
  const encryptedWallet <- parse_wallet data;
  const encryptedKeys <- base58CheckDecode (ciphertext encryptedWallet) "";
  const salt <- base58CheckDecode (salt encryptedWallet) "";
  const plaintext <- decryptMessage encryptedKeys passphrase salt;
  const keys <- parse_identities plaintext;
  resolve {| identities := keys |}.

(** Saves a wallet to a given file. *)
Definition saveWallet (filename : string) (wallet : Wallet) (passphrase : string)
  : Async Host Wallet :=
  let keys := stringify_identities (identities wallet) in
  await salt <- drawSalt;
  let encryptedKeys := encryptMessage keys passphrase salt in
  let encryptedWallet :=
    {| version := "1";
       salt := base58CheckEncode salt "";
       ciphertext := base58CheckEncode encryptedKeys "";
       kdf := "Argon2" |} in
  await written <- fsPromises.writeFile filename (stringify_wallet encryptedWallet);
  loadWallet filename passphrase.

(** Creates a new wallet file. *)
Definition createWallet (filename password : string) : Async Host Wallet :=
  let wallet := {| identities := [] |} in
  await saved <- saveWallet filename wallet password;
  resolve wallet.

(** Unlocks an identity supplied during the 2017 Tezos fundraiser. *)
Definition unlockFundraiserIdentity (mnemonic email password : string)
  : Completion KeyStore :=
  let passphrase := email +:+ password in
  getKeysFromMnemonicAndPassphrase mnemonic passphrase.

(** Generates a key pair based on a mnemonic. *)
Definition unlockIdentityWithMnemonic (mnemonic passphrase : string)
  : Completion KeyStore :=
  getKeysFromMnemonicAndPassphrase mnemonic passphrase.

End Wallet.

End TezosWallet.

(** ** The five operation kinds and their wrappers *)



(** ** Sample collaborators

    Small executable stand-ins for the collaborators, used to run the
    pipeline and the wallet codec on concrete inputs. *)

Module Sample.

Fixpoint stripPrefix (p s : string) : option string :=
  match p, s with
  | EmptyString, _ => Some s
  | String c p', String d s' => if Ascii.eqb c d then stripPrefix p' s' else None
  | String _ _, EmptyString => None
  end.

(** A length [n] in unary, followed by [rest]. *)
Fixpoint unary (n : nat) (rest : Buffer) : Buffer :=
  match n with
  | O => x00 :: rest
  | S n' => x01 :: unary n' rest
  end.

Fixpoint splitUnary (c : Buffer) : option (nat * Buffer) :=
  match c with
  | x00 :: rest => Some (O, rest)
  | x01 :: rest =>
      match splitUnary rest with
      | Some (n, rest') => Some (S n, rest')
      | None => None
      end
  | _ => None
  end.

(** The sealed box carries the password it was sealed under and opens
    only for that password. *)
Definition seal (m p : string) (s : Buffer) : Buffer :=
  let pb := list_byte_of_string p in
  unary (length pb) (pb ++ list_byte_of_string m)%list.

Definition unseal (c : Buffer) (q : string) (s : Buffer) : Completion string :=
  match splitUnary c with
  | Some (n, rest) =>
      if Nat.eqb n (length (list_byte_of_string q))
         && String.eqb (string_of_list_byte (firstn n rest)) q
      then Normal (string_of_list_byte (skipn n rest))
      else Throw DecryptionFailure
  | None => Throw DecryptionFailure
  end.

(** Reading hex digits back, the empty text giving no bytes. *)
Definition unhex (digits : string) : Completion Buffer :=
  match digits with
  | EmptyString => Normal []
  | _ => from_hex digits
  end.

#[local] Instance cryptoUtils : CryptoUtils := {|
  base58CheckEncode b p := p +:+ to_hex b;
  base58CheckDecode s p :=
    match stripPrefix p s with
    | Some digits => unhex digits
    | None => Throw (External "bad prefix")
    end;
  generateSaltForPwHash e := ([byte_of_ascii (ascii_of_N e)], N.succ e);
  encryptMessage := seal;
  decryptMessage := unseal;
  getKeysFromMnemonicAndPassphrase m p :=
    Normal {| publicKey := "edpk" +:+ m;
              privateKey := "edsk" +:+ to_hex (list_byte_of_string p);
              publicKeyHash := "tz1" +:+ m |}
|}.

#[local] Instance sodium : Sodium := {|
  crypto_generichash n b := firstn n (b ++ repeat x00 n)%list;
  crypto_sign_detached h k :=
    match k with
    | [] => Throw (External "invalid privateKey length")
    | _ => Normal (k ++ h)%list
    end
|}.

(** A text form for lists of strings: every character is preceded by
    [c] and every string is closed by [;]. *)
Fixpoint writeString (s rest : string) : string :=
  match s with
  | EmptyString => String ";" rest
  | String ch s' => String "c" (String ch (writeString s' rest))
  end.

Fixpoint writeStrings (l : list string) : string :=
  match l with
  | [] => EmptyString
  | s :: l' => writeString s (writeStrings l')
  end.

Fixpoint readStrings (input cur : string) : option (list string) :=
  match input with
  | EmptyString => match cur with EmptyString => Some [] | _ => None end
  | String ch rest =>
      if Ascii.eqb ch ";" then
        match readStrings rest EmptyString with
        | Some l => Some (cur :: l)
        | None => None
        end
      else
        match rest with
        | String x rest' =>
            if Ascii.eqb ch "c"
            then readStrings rest' (cur +:+ String x EmptyString)
            else None
        | EmptyString => None
        end
  end.

Fixpoint flatten (ids : list KeyStore) : list string :=
  match ids with
  | [] => []
  | k :: ids' => publicKey k :: privateKey k :: publicKeyHash k :: flatten ids'
  end.

Fixpoint regroup (l : list string) : option (list KeyStore) :=
  match l with
  | [] => Some []
  | a :: b :: c :: l' =>
      match regroup l' with
      | Some ids => Some ({| publicKey := a; privateKey := b; publicKeyHash := c |} :: ids)
      | None => None
      end
  | _ => None
  end.

Definition orSyntaxError {A} (o : option A) : Completion A :=
  match o with
  | Some a => Normal a
  | None => Throw (External "SyntaxError")
  end.

#[local] Instance json : JSON := {|
  stringify_identities ids := writeStrings (flatten ids);
  parse_identities s :=
    orSyntaxError (match readStrings s EmptyString with
                   | Some l => regroup l
                   | None => None
                   end);
  stringify_wallet w := writeStrings [version w; salt w; ciphertext w; kdf w];
  parse_wallet s :=
    orSyntaxError (match readStrings s EmptyString with
                   | Some [v; sa; ci; k] =>
                       Some {| version := v; salt := sa; ciphertext := ci; kdf := k |}
                   | _ => None
                   end)
|}.

Definition header : TezosTypes.BlockHeader := {|
  TezosTypes.level := 7;
  TezosTypes.proto := 1;
  TezosTypes.predecessor := "BLpred";
  TezosTypes.timestamp := "2018-06-30T00:00:00Z";
  TezosTypes.validation_pass := 4;
  TezosTypes.operations_hash := "LLoa";
  TezosTypes.fitness := ["00"; "07"];
  TezosTypes.context := "CoV";
  TezosTypes.priority := 0;
  TezosTypes.proof_of_work_nonce := "00000003";
  TezosTypes.signature := "sigSample"
|}.

Definition blockHead : TezosTypes.BlockMetadata := {|
  TezosTypes.protocol := "PsProto";
  TezosTypes.chain_id := "NetXSample";
  TezosTypes.hash := "BLhead";
  TezosTypes.metadata := header
|}.

Definition account (c : Z) : TezosTypes.Account := {|
  TezosTypes.manager := "tz1Manager";
  TezosTypes.balance := 5000;
  TezosTypes.spendable := true;
  TezosTypes.delegate := {| TezosTypes.setable := false; TezosTypes.value := "" |};
  TezosTypes.script := "";
  TezosTypes.counter := c
|}.

(** A node that answers every call, counts the calls it has answered,
    reports account counter [c] and answers the dry run with [applied]. *)
Definition node (c : Z) (applied : JsVal) : TezosNode.Remote nat := {|
  TezosNode.onGetBlockHead _ n := (Normal blockHead, S n);
  TezosNode.onGetAccountForBlock _ _ _ n := (Normal (account c), S n);
  TezosNode.onForgeOperation _ _ n := (Normal "a1b2c3", S n);
  TezosNode.onApplyOperation _ _ n := (Normal applied, S n);
  TezosNode.onInjectOperation _ _ n := (Normal "ooSampleGroup", S n)
|}.

Definition accepted : JsVal :=
  JArr [JObj [("contents", JArr [JObj [("kind", JStr "transaction")]]);
              ("signature", JStr "edsigSample")]].

Definition rejected : JsVal :=
  JArr [JObj [("kind", JStr "temporary");
              ("id", JStr "proto.alpha.contract.counter_in_the_past")]].

Definition keyStore : KeyStore := {|
  publicKey := "edpkSample";
  privateKey := "edsk0102";
  publicKeyHash := "tz1Sender"
|}.

Definition world : TezosNode.World nat :=
  {| TezosNode.remote := O; TezosNode.calls := [] |}.



Definition host : Host := {| files := ∅; locked := ∅; entropy := 7 |}.

Definition alice : KeyStore := {|
  publicKey := "edpkAlice"; privateKey := "edskAlice"; publicKeyHash := "tz1Alice"
|}.

Definition bob : KeyStore := {|
  publicKey := "edpkBob"; privateKey := "edskBob"; publicKeyHash := "tz1Bob"
|}.

End Sample.

(** ** Vocabulary of the statements *)

(** The first check of the validator fails: the envelope carries a kind
    that is neither null nor allowed. *)
Definition topLevelViolation (props : list (string * JsVal)) : bool :=
  notNull (lookupProp "kind" props)
  && negb (Set_has validAppliedKinds (lookupProp "kind" props)).

(** A content entry whose kind is not allowed. *)
Definition offending (entry : list (string * JsVal)) : bool :=
  negb (Set_has validAppliedKinds (lookupProp "kind" entry)).

(** The payloads [sendOperation] sends to the forge and apply calls. *)
Definition forgePayload (blockHead : TezosTypes.BlockMetadata)
    (operations : list JsVal) : JsVal :=
  JObj [("branch", JStr (TezosTypes.hash blockHead));
        ("contents", JArr operations)].

Definition applyPayload (blockHead : TezosTypes.BlockMetadata)
    (operations : list JsVal) (signedOpGroup : SignedOperationGroup) : JsVal :=
  JArr [JObj [("protocol", JStr (TezosTypes.protocol blockHead));
              ("branch", JStr (TezosTypes.hash blockHead));
              ("contents", JArr operations);
              ("signature", JStr (signature signedOpGroup))]].



(** The record [saveWallet] writes for a wallet, a passphrase and the
    salt it drew. *)
Definition walletRecord {CU : CryptoUtils} {J : JSON}
    (wallet : Wallet) (passphrase : string) (fresh : Buffer)
  : EncryptedWalletVersionOne :=
  {| version := "1";
     salt := base58CheckEncode fresh "";
     ciphertext :=
       base58CheckEncode
         (encryptMessage (stringify_identities (identities wallet)) passphrase fresh) "";
     kdf := "Argon2" |}.


(** The calls of a log that broadcast an operation. *)
Definition injections (log : list TezosNode.Call) : list TezosNode.Call :=
  List.filter TezosNode.isInject log.

(** ** Manager key query

    [isManagerKeyRevealedForAccount] uses one more RPC of the node,
    [getAccountManagerForBlock]. The node and its call log are those of
    [TezosNode], extended with that call. *)

Module ManagerKeys.

(** [key] is the revealed public key, or null (or absent) when no reveal
    has been done; it is kept as a [JsVal] because the code tests it
    against null. *)
Record ManagerKey : Type := {
  manager : string;
  key : JsVal
}.

Inductive Call : Type :=
| Node (c : TezosNode.Call)
| GetAccountManagerForBlock (network blockHash accountID : string).

Record Remote (R : Type) : Type := {
  node : TezosNode.Remote R;
  onGetAccountManagerForBlock : string -> string -> string -> R -> Completion ManagerKey * R
}.
Arguments node {R}.
Arguments onGetAccountManagerForBlock {R}.

Record World (R : Type) : Type := {
  remote : R;
  calls : list Call
}.
Arguments remote {R}.
Arguments calls {R}.
Arguments Build_World {R}.

Definition rpc {R A} (c : Call) (handler : R -> Completion A * R) : Async (World R) A :=
  fun w =>
    let (answer, r') := handler (remote w) in
    (answer, {| remote := r'; calls := calls w ++ [c] |}).

Section Client.
Context {R : Type} (remoteNode : Remote R).

Definition getBlockHead (network : string) :=
  rpc (Node (TezosNode.GetBlockHead network))
      (TezosNode.onGetBlockHead (node remoteNode) network).

Definition getAccountManagerForBlock (network blockHash accountID : string) :=
  rpc (GetAccountManagerForBlock network blockHash accountID)
      (onGetAccountManagerForBlock remoteNode network blockHash accountID).

(** Indicates whether a reveal operation has already been done for a
    given account. *)
Definition isManagerKeyRevealedForAccount (network : string) (keyStore : KeyStore)
  : Async (World R) bool :=
  await blockHead <- getBlockHead network;
  await managerKey <- getAccountManagerForBlock network
                        (TezosTypes.hash blockHead) (publicKeyHash keyStore);
  resolve (notNull (key managerKey)).

End Client.

End ManagerKeys.

(** ** More sample collaborators *)

Module Unreliable.

Definition refused : Exn := External "ECONNRESET".

(** The head of the chain when the node has answered [n] calls. *)
Definition headAt (n : nat) : TezosTypes.BlockMetadata := {|
  TezosTypes.protocol := "PsProto";
  TezosTypes.chain_id := "NetXSample";
  TezosTypes.hash := "BL" +:+ Number_toString (Z.of_nat n);
  TezosTypes.metadata := Sample.header
|}.

Definition answer {A} (failAt n : nat) (a : A) : Completion A * nat :=
  (if Nat.eqb n failAt then Throw refused else Normal a, S n).

(** A node whose head moves with every call it answers and that refuses
    the call it receives after having answered [failAt] calls. *)
Definition node (failAt : nat) (c : Z) (applied : JsVal) : TezosNode.Remote nat := {|
  TezosNode.onGetBlockHead _ n := answer failAt n (headAt n);
  TezosNode.onGetAccountForBlock _ _ _ n := answer failAt n (Sample.account c);
  TezosNode.onForgeOperation _ _ n := answer failAt n "a1b2c3";
  TezosNode.onApplyOperation _ _ n := answer failAt n applied;
  TezosNode.onInjectOperation _ _ n := answer failAt n "ooSampleGroup"
|}.

(** A key store whose private key is not an [edsk] key. *)
Definition strangerKeyStore : KeyStore := {|
  publicKey := "edpkSample";
  privateKey := "spsk0102";
  publicKeyHash := "tz1Sender"
|}.

Definition managerNode (k : JsVal) : ManagerKeys.Remote nat := {|
  ManagerKeys.node := Sample.node 41 Sample.accepted;
  ManagerKeys.onGetAccountManagerForBlock _ _ _ n :=
    (Normal {| ManagerKeys.manager := "tz1Manager"; ManagerKeys.key := k |}, S n)
|}.

Definition managerWorld : ManagerKeys.World nat :=
  {| ManagerKeys.remote := O; ManagerKeys.calls := [] |}.

Definition lockedHost : Host :=
  {| files := ∅; locked := {["wallet.json"]}; entropy := 7 |}.

(** A host whose wallet file holds the record [w]. *)
Definition storedHost (w : EncryptedWalletVersionOne) : Host :=
  {| files := <["wallet.json" := @stringify_wallet Sample.json w]> ∅;
     locked := ∅;
     entropy := 7 |}.

End Unreliable.

(** ** More vocabulary *)

(** A contents entry the validator lets through: its kind can be read and
    is one of the allowed kinds. *)
Definition passes (op : JsVal) : Prop :=
  exists kind, getProp op "kind" = Normal kind
               /\ Set_has validAppliedKinds kind = true.

(** Digits and the letters a to f in lower case. *)
Definition isLowerHexDigit (c : ascii) : bool :=
  let n := N_of_ascii c in
  (((48 <=? n) && (n <=? 57)) || ((97 <=? n) && (n <=? 102)))%N.

Fixpoint isLowerHex (s : string) : bool :=
  match s with
  | EmptyString => true
  | String c rest => isLowerHexDigit c && isLowerHex rest
  end.

(** The run of a wrapper from [w] to [w'] fetched the head, then the
    account of the key store at that head, and then went through the four
    calls of [sendOperation] with one content of kind [kindName] whose
    counter is the text of the sum of the fetched account's counter and
    one as the program computes it, which is the decimal string of the
    counter plus one when that is a safe integer. *)
Definition fetchedThenSubmitted {CU : CryptoUtils} {NaCl : Sodium} {R : Type}
    (node : TezosNode.Remote R) (network : string) (keyStore : KeyStore)
    (kindName : string) (w w' : TezosNode.World R) : Prop :=
  exists blockHead1 r1 account r2 blockHead2 r3 forged signedOpGroup props,
    TezosNode.onGetBlockHead node network (TezosNode.remote w) = (Normal blockHead1, r1)
    /\ TezosNode.onGetAccountForBlock node network
         (TezosTypes.hash blockHead1) (publicKeyHash keyStore) r1 = (Normal account, r2)
    /\ TezosNode.onGetBlockHead node network r2 = (Normal blockHead2, r3)
    /\ TezosOperations.signOperationGroup forged keyStore = Normal signedOpGroup
    /\ lookupProp "kind" props = JStr kindName
    /\ lookupProp "counter" props
       = JStr (Number_toString (Number_add (TezosTypes.counter account) 1))
    /\ (isSafeInteger (TezosTypes.counter account + 1) ->
        lookupProp "counter" props
        = JStr (decimalDigits (TezosTypes.counter account + 1))
        /\ decimal_value (decimalDigits (TezosTypes.counter account + 1))
           = Some (TezosTypes.counter account + 1))
    /\ TezosNode.calls w'
       = (TezosNode.calls w
          ++ [TezosNode.GetBlockHead network;
              TezosNode.GetAccountForBlock network
                (TezosTypes.hash blockHead1) (publicKeyHash keyStore);
              TezosNode.GetBlockHead network;
              TezosNode.ForgeOperation network (forgePayload blockHead2 [JObj props]);
              TezosNode.ApplyOperation network
                (applyPayload blockHead2 [JObj props] signedOpGroup);
              TezosNode.InjectOperation network (to_hex (bytes signedOpGroup))])%list.

(** * Properties *)

(** ** Completions *)

Lemma bindC_Normal {A B} (c : Completion A) (k : A -> Completion B) (a : A) :
  c = Normal a -> bindC c k = k a.
Proof. intros ->. reflexivity. Qed.

Lemma bindC_Throw {A B} (c : Completion A) (k : A -> Completion B) (e : Exn) :
  c = Throw e -> bindC c k = Throw e.
Proof. intros ->. reflexivity. Qed.

(** ** Numbers *)

Lemma decimal_value_digits (n : Z) : decimal_value (decimalDigits n) = Some n.
Proof.
  unfold decimal_value, decimalDigits.
  rewrite NilZero.isi.
  - cbn [option_map]. now rewrite DecimalZ.of_to.
  - intros H. assert (E : n = Z.of_int (Decimal.Pos Decimal.Nil))
      by (now rewrite <- H, DecimalZ.of_to).
    cbn in E. subst n. discriminate H.
  - intros H. assert (E : n = Z.of_int (Decimal.Neg Decimal.Nil))
      by (now rewrite <- H, DecimalZ.of_to).
    cbn in E. subst n. discriminate H.
Qed.

Lemma safe_below_2_53 (n : Z) : isSafeInteger n -> (Z.abs n <? 2 ^ 53) = true.
Proof.
  unfold isSafeInteger. change (2 ^ 53) with 9007199254740992.
  intros H. apply Z.ltb_lt. lia.
Qed.

(** On a safe integer [toString] gives the decimal digits. *)
Lemma Number_toString_safe (n : Z) :
  isSafeInteger n -> Number_toString n = decimalDigits n.
Proof. intros H. unfold Number_toString. now rewrite (safe_below_2_53 n H). Qed.

Lemma decimal_value_toString (n : Z) :
  isSafeInteger n -> decimal_value (Number_toString n) = Some n.
Proof. intros H. rewrite (Number_toString_safe n H). apply decimal_value_digits. Qed.

(** A sum that is a safe integer is computed exactly. *)
Lemma Number_add_safe (x y : Z) : isSafeInteger (x + y) -> Number_add x y = x + y.
Proof.
  intros H. unfold Number_add, roundToDouble. cbv zeta.
  now rewrite (safe_below_2_53 _ H).
Qed.

(** ** Hexadecimal text *)

Lemma hex_byte (x : byte) :
  let n := Byte.to_N x in
  hexValue (hexDigit (n / 16)) = Some (n / 16)%N
  /\ hexValue (hexDigit (n mod 16)) = Some (n mod 16)%N
  /\ byte_of_nibbles (n / 16) (n mod 16) = x.
Proof. destruct x; vm_compute; repeat split; reflexivity. Qed.

Lemma hexBytes_to_hex (b : Buffer) : hexBytes (to_hex b) = b.
Proof.
  induction b as [|x b IH]; [reflexivity|].
  destruct (hex_byte x) as (Hh & Hl & Hb). cbv zeta in Hh, Hl, Hb.
  cbn [to_hex hexBytes]. unfold nibble. rewrite Hh, Hl, Hb, IH. reflexivity.
Qed.

Lemma allHexDigits_to_hex (b : Buffer) : allHexDigits (to_hex b) = true.
Proof.
  induction b as [|x b IH]; [reflexivity|].
  destruct (hex_byte x) as (Hh & Hl & _). cbv zeta in Hh, Hl.
  cbn [to_hex allHexDigits]. now rewrite Hh, Hl.
Qed.

Lemma even_length_to_hex (b : Buffer) : Nat.even (String.length (to_hex b)) = true.
Proof. induction b as [|x b IH]; [reflexivity | exact IH]. Qed.

(** Decoding the hex text of a buffer gives the buffer back, unless the
    buffer is empty: its text is the empty one, which [from_hex] refuses. *)
Lemma from_hex_to_hex (b : Buffer) : b <> [] -> from_hex (to_hex b) = Normal b.
Proof.
  intros Hb. unfold from_hex, is_hex.
  rewrite allHexDigits_to_hex, even_length_to_hex, hexBytes_to_hex.
  destruct b; [contradiction | reflexivity].
Qed.

Lemma from_hex_Normal (s : string) (b : Buffer) :
  from_hex s = Normal b ->
  s <> "" /\ allHexDigits s && Nat.even (String.length s) = true /\ b = hexBytes s.
Proof.
  unfold from_hex, is_hex. destruct s as [|c s]; [discriminate|].
  destruct (allHexDigits (String c s) && Nat.even (String.length (String c s)));
    [|discriminate].
  intros [= <-]. repeat split. discriminate.
Qed.

(** The watermarked text: two more digits in front. *)
Lemma from_hex_watermark (s : string) :
  from_hex ("03" +:+ s)
  = if allHexDigits s && Nat.even (String.length s)
    then Normal (x03 :: hexBytes s) else Throw TypeError.
Proof. reflexivity. Qed.

Lemma from_hex_watermark_Normal (s : string) (b : Buffer) :
  from_hex s = Normal b -> from_hex ("03" +:+ s) = Normal (x03 :: b).
Proof.
  intros H. apply from_hex_Normal in H as (_ & Hhex & ->).
  now rewrite from_hex_watermark, Hhex.
Qed.

Lemma from_hex_nonempty (s : string) (b : Buffer) : from_hex s = Normal b -> b <> [].
Proof.
  intros H. apply from_hex_Normal in H as (Hs & Hhex & ->).
  destruct s as [|h [|l rest]]; [contradiction | | discriminate].
  apply andb_prop in Hhex as [_ Hev]. discriminate Hev.
Qed.

Lemma to_hex_app (a b : Buffer) : to_hex (a ++ b)%list = to_hex a +:+ to_hex b.
Proof. induction a as [|x a IH]; cbn; [reflexivity|]. now rewrite IH. Qed.

(** ** The validator *)

Lemma checkContents_objects (entries : list (list (string * JsVal))) :
  checkContents (map JObj entries) =
  match find offending entries with
  | Some e => Throw (couldNotApply (lookupProp "id" e))
  | None => Normal tt
  end.
Proof.
  induction entries as [|e entries IH]; [reflexivity|].
  cbn [map checkContents getProp bindC find]. fold (offending e).
  destruct (offending e); [reflexivity | exact IH].
Qed.

Lemma checkContents_notNull (ops : list JsVal) :
  Forall (fun op => notNull op = true) ops ->
  checkContents ops = Normal tt \/ exists id, checkContents ops = Throw (couldNotApply id).
Proof.
  induction 1 as [|op ops Hop _ IH]; [now left|].
  cbn [checkContents].
  assert (Hk : exists k i, getProp op "kind" = Normal k /\ getProp op "id" = Normal i)
    by (destruct op; try discriminate Hop; cbn; eauto).
  destruct Hk as (k & i & -> & ->). cbn [bindC].
  destruct (negb (Set_has validAppliedKinds k)); [right; eauto | exact IH].
Qed.

(** What the validator does on an envelope that is an object. *)
Lemma check_envelope (props : list (string * JsVal)) (rest : list JsVal) :
  checkAppliedOperationResults (JArr (JObj props :: rest)) =
  if topLevelViolation props
  then Throw (couldNotApply (lookupProp "id" props))
  else try ops <- iterate (lookupProp "contents" props); checkContents ops.
Proof.
  unfold checkAppliedOperationResults, topLevelViolation.
  cbn [getIndex0 nth getProp bindC].
  destruct (notNull (lookupProp "kind" props)
            && negb (Set_has validAppliedKinds (lookupProp "kind" props)));
    reflexivity.
Qed.

Lemma checkContents_accepts (ops : list JsVal) :
  checkContents ops = Normal tt <-> Forall passes ops.
Proof.
  induction ops as [|op ops IH]; [split; [constructor | reflexivity]|].
  cbn [checkContents]. split.
  - destruct (getProp op "kind") as [kind|] eqn:Hkind; [|discriminate].
    cbn [bindC].
    destruct (Set_has validAppliedKinds kind) eqn:Hset; cbn [negb].
    + intros H. constructor; [exists kind; auto | now apply IH].
    + destruct (getProp op "id"); discriminate.
  - intros H. inversion H as [|? ? (kind & Hkind & Hset) Hrest]; subst.
    rewrite Hkind. cbn [bindC]. rewrite Hset. cbn [negb]. now apply IH.
Qed.







(** C10, the statement as first written fails:
    an envelope without [contents] whose kind is outside the set never
    reaches the unguarded iteration; the validation error is raised. *)
Lemma missing_contents_still_validation_error :
  lookupProp "contents"
    [("kind", JStr "temporary"); ("id", JStr "proto.alpha.contract.counter_in_the_past")]
  = JUndefined
  /\ checkAppliedOperationResults
       (JArr [JObj [("kind", JStr "temporary");
                    ("id", JStr "proto.alpha.contract.counter_in_the_past")]])
     = Throw (Error "Could not apply operation because: proto.alpha.contract.counter_in_the_past")
  /\ checkAppliedOperationResults
       (JArr [JObj [("kind", JStr "temporary");
                    ("id", JStr "proto.alpha.contract.counter_in_the_past")]])
     <> Throw TypeError.
Proof. repeat split. discriminate. Qed.

(** C10, amended. The validator reads [appliedOp[0]] and iterates its
    [contents] without a guard. On a non-empty array whose first element is
    an object with a contents array of non-null entries, the only failure is
    the validation error. On an empty array the unguarded read fails with a
    [TypeError]. On a first element without [contents] the unguarded
    iteration fails with a [TypeError] when the envelope's kind is null or
    allowed; when the envelope's kind is outside the set the validation
    error is raised first. *)
Theorem checkAppliedOperationResults_failure_paths :
  forall (props : list (string * JsVal)) (rest : list JsVal),
    let appliedOp := JArr (JObj props :: rest) in
    (forall ops : list JsVal,
        lookupProp "contents" props = JArr ops ->
        Forall (fun op => notNull op = true) ops ->
        checkAppliedOperationResults appliedOp = Normal tt
        \/ exists id, checkAppliedOperationResults appliedOp = Throw (couldNotApply id))
    /\ checkAppliedOperationResults (JArr []) = Throw TypeError
    /\ (notNull (lookupProp "contents" props) = false ->
        topLevelViolation props = false ->
        checkAppliedOperationResults appliedOp = Throw TypeError)
    /\ (notNull (lookupProp "contents" props) = false ->
        topLevelViolation props = true ->
        checkAppliedOperationResults appliedOp
        = Throw (couldNotApply (lookupProp "id" props))).
Proof.
  intros props rest appliedOp. subst appliedOp. repeat split.
  - intros ops Hc Hops. rewrite check_envelope.
    destruct (topLevelViolation props); [right; eauto|].
    rewrite Hc. cbn [iterate bindC]. now apply checkContents_notNull.
  - intros Hc Hv. rewrite check_envelope, Hv.
    destruct (lookupProp "contents" props); try discriminate Hc; reflexivity.
  - intros _ Hv. now rewrite check_envelope, Hv.
Qed.

Lemma checkAppliedOperationResults_failure_paths_witness :
  (checkAppliedOperationResults Sample.accepted = Normal tt
   \/ exists id, checkAppliedOperationResults Sample.accepted = Throw (couldNotApply id))
  /\ checkAppliedOperationResults (JArr [JObj [("signature", JStr "edsigSample")]])
     = Throw TypeError
  /\ checkAppliedOperationResults Sample.rejected
     = Throw (couldNotApply (JStr "proto.alpha.contract.counter_in_the_past")).
Proof.
  split; [|split].
  - apply (proj1 (checkAppliedOperationResults_failure_paths
                    [("contents", JArr [JObj [("kind", JStr "transaction")]]);
                     ("signature", JStr "edsigSample")] [])
             [JObj [("kind", JStr "transaction")]]);
      [reflexivity | repeat constructor].
  - apply (proj1 (proj2 (proj2 (checkAppliedOperationResults_failure_paths
                    [("signature", JStr "edsigSample")] [])))); reflexivity.
  - apply (proj2 (proj2 (proj2 (checkAppliedOperationResults_failure_paths
                    [("kind", JStr "temporary");
                     ("id", JStr "proto.alpha.contract.counter_in_the_past")] []))));
      reflexivity.
Defined.

(** A contents entry that is [null] is read without a guard as well. *)
Example null_entry_is_a_type_error :
  checkAppliedOperationResults (JArr [JObj [("contents", JArr [JNull])]])
  = Throw TypeError.
Proof. reflexivity. Qed.

(** ** Signing *)

(** C2, amended. For a forged operation that [from_hex] decodes (a
    non-empty text of an even number of hexadecimal digits), a private key
    that decodes under [edsk] and a signing that succeeds, the signature
    field is the [edsig] encoding of the detached signature over the
    32-byte generic hash of the watermark byte [0x03] followed by the
    forged bytes, and the bytes field is the forged bytes, without the
    watermark, followed by the raw signature. *)
Theorem signOperationGroup_spec :
  forall {CU : CryptoUtils} {NaCl : Sodium}
         (forgedOperation : string) (keyStore : KeyStore)
         (forgedBytes privateKeyBytes opSignature : Buffer),
    from_hex forgedOperation = Normal forgedBytes ->
    base58CheckDecode (privateKey keyStore) "edsk" = Normal privateKeyBytes ->
    crypto_sign_detached (crypto_generichash 32 (x03 :: forgedBytes)) privateKeyBytes
    = Normal opSignature ->
    TezosOperations.signOperationGroup forgedOperation keyStore
    = Normal {| bytes := (forgedBytes ++ opSignature)%list;
                signature := base58CheckEncode opSignature "edsig" |}.
Proof.
  intros CU NaCl forgedOperation keyStore forgedBytes privateKeyBytes opSignature
         Hhex Hkey Hsig.
  unfold TezosOperations.signOperationGroup. cbv zeta.
  rewrite (from_hex_watermark_Normal _ _ Hhex). cbn [bindC].
  rewrite Hkey. cbn [bindC]. rewrite Hsig. cbn [bindC].
  rewrite Hhex. reflexivity.
Qed.

Lemma signOperationGroup_spec_witness :
  @TezosOperations.signOperationGroup Sample.cryptoUtils Sample.sodium
    "a1b2c3" Sample.keyStore
  = Normal {| bytes := ([xa1; xb2; xc3]
                        ++ ([x01; x02] ++ firstn 32 ([x03; xa1; xb2; xc3] ++ repeat x00 32)))%list;
              signature := "edsig"
                +:+ to_hex ([x01; x02] ++ firstn 32 ([x03; xa1; xb2; xc3] ++ repeat x00 32))%list |}.
Proof.
  apply (@signOperationGroup_spec Sample.cryptoUtils Sample.sodium
           "a1b2c3" Sample.keyStore [xa1; xb2; xc3] [x01; x02]); reflexivity.
Defined.

(** C2, the statement as first written fails on the empty text, the hex
    text of no bytes: the key decodes and the signing succeeds, and yet
    the call throws, because [from_hex] refuses the bare forged text. *)
Lemma empty_forged_text_is_refused :
  to_hex [] = ""
  /\ @base58CheckDecode Sample.cryptoUtils (privateKey Sample.keyStore) "edsk"
     = Normal [x01; x02]
  /\ @crypto_sign_detached Sample.sodium
       (@crypto_generichash Sample.sodium 32 [x03]) [x01; x02]
     = Normal ([x01; x02; x03] ++ repeat x00 31)%list
  /\ @TezosOperations.signOperationGroup Sample.cryptoUtils Sample.sodium
       "" Sample.keyStore
     = Throw TypeError.
Proof. repeat split. Qed.

(** ** Unlocking identities *)

(** C9. The fundraiser unlock is the mnemonic unlock with the email
    followed by the password as passphrase. *)
Theorem unlockFundraiserIdentity_is_mnemonic_unlock :
  forall {CU : CryptoUtils} (mnemonic email password : string),
    TezosWallet.unlockFundraiserIdentity mnemonic email password
    = TezosWallet.unlockIdentityWithMnemonic mnemonic (email +:+ password).
Proof. reflexivity. Qed.

(** ** The submission pipeline *)

Lemma bindA_Normal {S A B} (m : Async S A) (k : A -> Async S B) s a s' :
  m s = (Normal a, s') -> bindA m k s = k a s'.
Proof. unfold bindA. now intros ->. Qed.

Lemma bindA_Throw {S A B} (m : Async S A) (k : A -> Async S B) s e s' :
  m s = (Throw e, s') -> bindA m k s = (Throw e, s').
Proof. unfold bindA. now intros ->. Qed.

Lemma rpc_answer {R A} (c : TezosNode.Call) (handler : R -> Completion A * R)
    (r r' : R) (log : list TezosNode.Call) (answer : Completion A) :
  handler r = (answer, r') ->
  TezosNode.rpc c handler {| TezosNode.remote := r; TezosNode.calls := log |}
  = (answer, {| TezosNode.remote := r'; TezosNode.calls := (log ++ [c])%list |}).
Proof. unfold TezosNode.rpc. cbn. now intros ->. Qed.

Lemma signOperationGroup_inv {CU : CryptoUtils} {NaCl : Sodium}
    (forgedOperation : string) (keyStore : KeyStore) (sg : SignedOperationGroup) :
  TezosOperations.signOperationGroup forgedOperation keyStore = Normal sg ->
  exists forgedBytes privateKeyBytes opSignature,
    from_hex forgedOperation = Normal forgedBytes
    /\ base58CheckDecode (privateKey keyStore) "edsk" = Normal privateKeyBytes
    /\ crypto_sign_detached (crypto_generichash 32 (x03 :: forgedBytes)) privateKeyBytes
       = Normal opSignature
    /\ sg = {| bytes := (forgedBytes ++ opSignature)%list;
               signature := base58CheckEncode opSignature "edsig" |}.
Proof.
  unfold TezosOperations.signOperationGroup. cbv zeta.
  destruct (from_hex forgedOperation) as [fb|] eqn:Hhex.
  - rewrite (from_hex_watermark_Normal _ _ Hhex). cbn [bindC].
    destruct (base58CheckDecode (privateKey keyStore) "edsk") as [key|] eqn:Hkey;
      [|discriminate].
    cbn [bindC].
    destruct (crypto_sign_detached _ key) as [sig|] eqn:Hsig; [|discriminate].
    cbn [bindC]. intros [= <-]. eauto 10.
  - destruct (from_hex ("03" +:+ forgedOperation)); [|discriminate].
    cbn [bindC].
    destruct (base58CheckDecode (privateKey keyStore) "edsk"); [|discriminate].
    cbn [bindC].
    destruct (crypto_sign_detached _ _); discriminate.
Qed.

Lemma rpc_inv {R A} (c : TezosNode.Call) (handler : R -> Completion A * R)
    (w w' : TezosNode.World R) (answer : Completion A) :
  TezosNode.rpc c handler w = (answer, w') ->
  exists r', handler (TezosNode.remote w) = (answer, r')
             /\ w' = {| TezosNode.remote := r';
                        TezosNode.calls := (TezosNode.calls w ++ [c])%list |}.
Proof.
  unfold TezosNode.rpc. destruct (handler (TezosNode.remote w)) as [a r'].
  intros [= <- <-]. eauto.
Qed.

Lemma sync_inv {S A} (c : Completion A) (s s' : S) (a : A) :
  sync c s = (Normal a, s') -> c = Normal a /\ s' = s.
Proof. unfold sync. now intros [= -> ->]. Qed.

(** One [await] of a run that resolves: the awaited call resolved. *)
Tactic Notation "await_step" ident(a) ident(s) ident(H) :=
  match goal with
  | |- bindA ?m ?k ?s0 = (Normal _, _) -> _ =>
      unfold bindA at 1;
      destruct (m s0) as [[a|] s] eqn:H; [|discriminate]
  end.

Section Pipeline.
Context {CU : CryptoUtils} {NaCl : Sodium}.
Context {R : Type} (node : TezosNode.Remote R).

(** C1. In a run of [sendOperation] that reaches the validation step and
    in which [checkAppliedOperationResults] throws, the exception is the
    outcome of the run, the node has been asked for the block head, the
    forging and the dry run only, and no inject call has been made. *)
Theorem sendOperation_rejected_never_injected :
  forall (network : string) (operations : list JsVal) (keyStore : KeyStore)
         (r0 r1 r2 r3 : R) (log : list TezosNode.Call)
         (blockHead : TezosTypes.BlockMetadata) (forged : string)
         (signedOpGroup : SignedOperationGroup) (appliedOp : JsVal) (e : Exn),
    TezosNode.onGetBlockHead node network r0 = (Normal blockHead, r1) ->
    TezosNode.onForgeOperation node network (forgePayload blockHead operations) r1
    = (Normal forged, r2) ->
    TezosOperations.signOperationGroup forged keyStore = Normal signedOpGroup ->
    TezosNode.onApplyOperation node network
      (applyPayload blockHead operations signedOpGroup) r2
    = (Normal appliedOp, r3) ->
    checkAppliedOperationResults appliedOp = Throw e ->
    let run := TezosOperations.sendOperation node network operations keyStore
                 {| TezosNode.remote := r0; TezosNode.calls := log |} in
    fst run = Throw e
    /\ TezosNode.remote (snd run) = r3
    /\ TezosNode.calls (snd run)
       = (log ++ [TezosNode.GetBlockHead network;
                  TezosNode.ForgeOperation network (forgePayload blockHead operations);
                  TezosNode.ApplyOperation network
                    (applyPayload blockHead operations signedOpGroup)])%list
    /\ injections (TezosNode.calls (snd run)) = injections log.
Proof.
  intros network operations keyStore r0 r1 r2 r3 log blockHead forged
         signedOpGroup appliedOp e Hhead Hforge Hsign Happly Hcheck run.
  assert (Hrun : run = (Throw e,
                        {| TezosNode.remote := r3;
                           TezosNode.calls :=
                             (((log ++ [TezosNode.GetBlockHead network])
                               ++ [TezosNode.ForgeOperation network
                                     (forgePayload blockHead operations)])
                              ++ [TezosNode.ApplyOperation network
                                    (applyPayload blockHead operations signedOpGroup)])%list
                        |})).
  { subst run. unfold TezosOperations.sendOperation.
    erewrite bindA_Normal
      by (unfold TezosNode.getBlockHead; apply rpc_answer, Hhead).
    erewrite bindA_Normal
      by (unfold TezosOperations.forgeOperations, TezosNode.forgeOperation;
          cbv zeta; apply rpc_answer, Hforge).
    erewrite bindA_Normal by (unfold sync; rewrite Hsign; reflexivity).
    cbv zeta.
    erewrite bindA_Normal
      by (unfold TezosOperations.applyOperation, TezosNode.applyOperation;
          cbv zeta; apply rpc_answer, Happly).
    erewrite bindA_Throw by (unfold sync; rewrite Hcheck; reflexivity).
    reflexivity. }
  rewrite Hrun. cbn [fst snd TezosNode.remote TezosNode.calls].
  repeat split.
  - now rewrite <- !app_assoc.
  - unfold injections. rewrite !List.filter_app. cbn. now rewrite !app_nil_r.
Qed.

(** Every run of [sendOperation] that resolves went through the seven
    steps in order. *)
Lemma sendOperation_resolved_inv :
  forall (network : string) (operations : list JsVal) (keyStore : KeyStore)
         (w w' : TezosNode.World R) (result : OperationResult),
    TezosOperations.sendOperation node network operations keyStore w
    = (Normal result, w') ->
    exists blockHead r1 forged r2 signedOpGroup appliedOp r3 injected r4 first,
      TezosNode.onGetBlockHead node network (TezosNode.remote w)
      = (Normal blockHead, r1)
      /\ TezosNode.onForgeOperation node network
           (forgePayload blockHead operations) r1 = (Normal forged, r2)
      /\ TezosOperations.signOperationGroup forged keyStore = Normal signedOpGroup
      /\ TezosNode.onApplyOperation node network
           (applyPayload blockHead operations signedOpGroup) r2
         = (Normal appliedOp, r3)
      /\ checkAppliedOperationResults appliedOp = Normal tt
      /\ TezosNode.onInjectOperation node network
           (to_hex (bytes signedOpGroup)) r3 = (Normal injected, r4)
      /\ getIndex0 appliedOp = Normal first
      /\ result = {| results := first; operationGroupID := injected |}
      /\ TezosNode.remote w' = r4
      /\ TezosNode.calls w'
         = (TezosNode.calls w
            ++ [TezosNode.GetBlockHead network;
                TezosNode.ForgeOperation network (forgePayload blockHead operations);
                TezosNode.ApplyOperation network
                  (applyPayload blockHead operations signedOpGroup);
                TezosNode.InjectOperation network (to_hex (bytes signedOpGroup))])%list.
Proof.
  intros network operations keyStore w w' result.
  unfold TezosOperations.sendOperation.
  await_step blockHead w1 Hhead.
  apply rpc_inv in Hhead as (r1 & Hhead & ->).
  await_step forged w2 Hforge.
  apply rpc_inv in Hforge as (r2 & Hforge & ->).
  await_step signedOpGroup w3 Hsign. apply sync_inv in Hsign as [Hsign ->].
  cbv zeta.
  await_step appliedOp w4 Happly.
  apply rpc_inv in Happly as (r3 & Happly & ->).
  await_step checked w5 Hcheck. apply sync_inv in Hcheck as [Hcheck ->].
  await_step injected w6 Hinject.
  apply rpc_inv in Hinject as (r4 & Hinject & ->).
  await_step firstOp w7 Hfirst. apply sync_inv in Hfirst as [Hfirst ->].
  unfold resolve. intros [= <- <-]. destruct checked.
  exists blockHead, r1, forged, r2, signedOpGroup, appliedOp, r3, injected, r4, firstOp.
  cbn [TezosNode.remote TezosNode.calls] in *.
  rewrite <- !app_assoc. cbn [app].
  repeat split; assumption || reflexivity.
Qed.

(** C3. In every run of [sendOperation] that completes, the run forged
    once, on the block head it fetched first, signed the text the node
    returned, and made one inject call, at the node state the dry run
    left, whose payload is the hex text of the [bytes] of that signed
    group: the bytes the forged text decodes to followed by the signature
    over them. The four calls are all the calls of the run, so nothing is
    forged or signed again between signing and injection, and the payload
    decodes back to the forged bytes followed by the signature bytes. *)
Theorem sendOperation_injects_signed_bytes :
  forall (network : string) (operations : list JsVal) (keyStore : KeyStore)
         (w w' : TezosNode.World R) (result : OperationResult),
    TezosOperations.sendOperation node network operations keyStore w
    = (Normal result, w') ->
    exists blockHead r1 forged r2 signedOpGroup forgedBytes privateKeyBytes
           opSignature appliedOp r3,
      TezosNode.onGetBlockHead node network (TezosNode.remote w)
      = (Normal blockHead, r1)
      /\ TezosNode.onForgeOperation node network (forgePayload blockHead operations) r1
         = (Normal forged, r2)
      /\ TezosOperations.signOperationGroup forged keyStore = Normal signedOpGroup
      /\ from_hex forged = Normal forgedBytes
      /\ base58CheckDecode (privateKey keyStore) "edsk" = Normal privateKeyBytes
      /\ crypto_sign_detached (crypto_generichash 32 (x03 :: forgedBytes)) privateKeyBytes
         = Normal opSignature
      /\ bytes signedOpGroup = (forgedBytes ++ opSignature)%list
      /\ TezosNode.onApplyOperation node network
           (applyPayload blockHead operations signedOpGroup) r2
         = (Normal appliedOp, r3)
      /\ TezosNode.onInjectOperation node network
           (to_hex (forgedBytes ++ opSignature)%list) r3
         = (Normal (operationGroupID result), TezosNode.remote w')
      /\ TezosNode.calls w'
         = (TezosNode.calls w
            ++ [TezosNode.GetBlockHead network;
                TezosNode.ForgeOperation network (forgePayload blockHead operations);
                TezosNode.ApplyOperation network
                  (applyPayload blockHead operations signedOpGroup);
                TezosNode.InjectOperation network
                  (to_hex (forgedBytes ++ opSignature)%list)])%list
      /\ injections (TezosNode.calls w')
         = (injections (TezosNode.calls w)
            ++ [TezosNode.InjectOperation network (to_hex (bytes signedOpGroup))])%list
      /\ from_hex (to_hex (bytes signedOpGroup))
         = Normal (forgedBytes ++ opSignature)%list.
Proof.
  intros network operations keyStore w w' result Hrun.
  apply sendOperation_resolved_inv in Hrun
    as (blockHead & r1 & forged & r2 & sg & appliedOp & r3 & injected & r4 & first
        & Hhead & Hforge & Hsign & Happly & Hcheck & Hinject & Hfirst & -> & Hr & Hcalls).
  destruct (signOperationGroup_inv _ _ _ Hsign)
    as (forgedBytes & key & sig & Hhex & Hkey & Hsig & Hsg).
  assert (Hbytes : bytes sg = (forgedBytes ++ sig)%list) by now rewrite Hsg.
  exists blockHead, r1, forged, r2, sg, forgedBytes, key, sig, appliedOp, r3.
  cbn [operationGroupID]. rewrite Hr, <- Hbytes.
  repeat split; try assumption.
  - rewrite Hcalls. unfold injections. rewrite List.filter_app. reflexivity.
  - rewrite Hbytes. apply from_hex_to_hex.
    intros E. apply app_eq_nil in E as [E _].
    exact (from_hex_nonempty _ _ Hhex E).
Qed.

(** *** What a run may ask the node *)






(** *** The wrappers *)

(** C4, amended. With the block head and the account fetched, and with
    the amount, the fee and the remote counter plus one all safe integers,
    the transaction wrapper submits exactly one content: kind
    [transaction], source the key store's public key hash, the destination
    as given, amount and fee as decimal strings, counter the decimal
    string of the remote counter plus one, gas limit "120", storage limit
    "0" and the [Unit] parameters. *)
Theorem sendTransactionOperation_content :
  forall (network : string) (keyStore : KeyStore) (to : string) (amount fee c : Z)
         (r0 r1 r2 : R) (log : list TezosNode.Call)
         (blockHead : TezosTypes.BlockMetadata) (account : TezosTypes.Account),
    isSafeInteger amount -> isSafeInteger fee -> isSafeInteger (c + 1) ->
    TezosNode.onGetBlockHead node network r0 = (Normal blockHead, r1) ->
    TezosNode.onGetAccountForBlock node network
      (TezosTypes.hash blockHead) (publicKeyHash keyStore) r1 = (Normal account, r2) ->
    TezosTypes.counter account = c ->
    let amountText := Number_toString amount in
    let feeText := Number_toString fee in
    let counterText := Number_toString (c + 1) in
    TezosOperations.sendTransactionOperation node network keyStore to amount fee
      {| TezosNode.remote := r0; TezosNode.calls := log |}
    = TezosOperations.sendOperation node network
        [JObj [("destination", JStr to);
               ("amount", JStr amountText);
               ("storage_limit", JStr "0");
               ("gas_limit", JStr "120");
               ("counter", JStr counterText);
               ("fee", JStr feeText);
               ("source", JStr (publicKeyHash keyStore));
               ("kind", JStr "transaction");
               ("parameters", JObj [("prim", JStr "Unit"); ("args", JArr [])])]]
        keyStore
        {| TezosNode.remote := r2;
           TezosNode.calls :=
             (log ++ [TezosNode.GetBlockHead network;
                      TezosNode.GetAccountForBlock network
                        (TezosTypes.hash blockHead) (publicKeyHash keyStore)])%list |}
    /\ decimal_value amountText = Some amount
    /\ decimal_value feeText = Some fee
    /\ decimal_value counterText = Some (c + 1)
    /\ (c = 41 -> counterText = "42").
Proof.
  intros network keyStore to amount fee c r0 r1 r2 log blockHead account
         Hamount Hfee Hcounter Hhead Hacct Hc. cbv zeta.
  rewrite !decimal_value_toString by assumption. repeat split.
  - unfold TezosOperations.sendTransactionOperation.
    erewrite bindA_Normal
      by (unfold TezosNode.getBlockHead; apply rpc_answer, Hhead).
    erewrite bindA_Normal
      by (unfold TezosNode.getAccountForBlock; apply rpc_answer, Hacct).
    cbv zeta. unfold TezosOperations.Number.
    rewrite Hc, (Number_add_safe _ _ Hcounter), <- app_assoc. reflexivity.
  - now intros ->.
Qed.



End Pipeline.

(** ** Witnesses of the pipeline theorems on the sample node *)

Section OnTheSampleNode.
#[local] Existing Instance Sample.cryptoUtils.
#[local] Existing Instance Sample.sodium.

Lemma sendOperation_rejected_never_injected_witness :
fst (TezosOperations.sendOperation (Sample.node 41 Sample.rejected) "zeronet"
       [JObj [("kind", JStr "reveal")]] Sample.keyStore Sample.world)
= Throw (couldNotApply (JStr "proto.alpha.contract.counter_in_the_past"))
/\ injections
     (TezosNode.calls
        (snd (TezosOperations.sendOperation (Sample.node 41 Sample.rejected) "zeronet"
                [JObj [("kind", JStr "reveal")]] Sample.keyStore Sample.world)))
   = [].
Proof.
epose proof (@sendOperation_rejected_never_injected
               Sample.cryptoUtils Sample.sodium nat (Sample.node 41 Sample.rejected)
               "zeronet" [JObj [("kind", JStr "reveal")]] Sample.keyStore
               0%nat 1%nat 2%nat 3%nat [] Sample.blockHead "a1b2c3" _ Sample.rejected _
               eq_refl eq_refl eq_refl eq_refl eq_refl) as W.
cbv zeta in W. destruct W as (Hres & _ & _ & Hinj).
split; [exact Hres | exact Hinj].
Defined.

Lemma sendOperation_injects_signed_bytes_witness :
exists signedOpGroup forgedBytes opSignature,
  @TezosOperations.signOperationGroup Sample.cryptoUtils Sample.sodium
    "a1b2c3" Sample.keyStore = Normal signedOpGroup
  /\ from_hex "a1b2c3" = Normal forgedBytes
  /\ bytes signedOpGroup = (forgedBytes ++ opSignature)%list
  /\ injections
       (TezosNode.calls
          (snd (TezosOperations.sendOperation (Sample.node 41 Sample.accepted) "zeronet"
                  [JObj [("kind", JStr "reveal")]] Sample.keyStore Sample.world)))
     = [TezosNode.InjectOperation "zeronet" (to_hex (bytes signedOpGroup))].
Proof.
destruct (@sendOperation_injects_signed_bytes
            Sample.cryptoUtils Sample.sodium nat (Sample.node 41 Sample.accepted)
            "zeronet" [JObj [("kind", JStr "reveal")]] Sample.keyStore
            Sample.world _ _ eq_refl)
  as (blockHead & r1 & forged & r2 & sg & fb & key & sig & appliedOp & r3
      & Hhead & Hforge & Hsign & Hhex & _ & _ & Hbytes & _ & _ & _ & Hinj & _).
cbn in Hhead. injection Hhead as <- <-.
cbn in Hforge. injection Hforge as <- _.
exists sg, fb, sig. repeat split; assumption.
Defined.

Lemma sendTransactionOperation_content_witness :
TezosOperations.sendTransactionOperation (Sample.node 41 Sample.accepted) "zeronet"
  Sample.keyStore "tz1Receiver" 1000 100 Sample.world
= TezosOperations.sendOperation (Sample.node 41 Sample.accepted) "zeronet"
    [JObj [("destination", JStr "tz1Receiver");
           ("amount", JStr "1000");
           ("storage_limit", JStr "0");
           ("gas_limit", JStr "120");
           ("counter", JStr "42");
           ("fee", JStr "100");
           ("source", JStr "tz1Sender");
           ("kind", JStr "transaction");
           ("parameters", JObj [("prim", JStr "Unit"); ("args", JArr [])])]]
    Sample.keyStore
    {| TezosNode.remote := 2%nat;
       TezosNode.calls := [TezosNode.GetBlockHead "zeronet";
                           TezosNode.GetAccountForBlock "zeronet" "BLhead" "tz1Sender"] |}.
Proof.
assert (S1 : isSafeInteger 1000) by (unfold isSafeInteger; lia).
assert (S2 : isSafeInteger 100) by (unfold isSafeInteger; lia).
assert (S3 : isSafeInteger (41 + 1)) by (unfold isSafeInteger; lia).
exact (proj1 (@sendTransactionOperation_content
                Sample.cryptoUtils Sample.sodium nat (Sample.node 41 Sample.accepted)
                "zeronet" Sample.keyStore "tz1Receiver" 1000 100 41
                0%nat 1%nat 2%nat [] Sample.blockHead (Sample.account 41)
                S1 S2 S3 eq_refl eq_refl eq_refl)).
Defined.

(** C4, the statement as first written fails on large numbers: with the
    remote counter at 2^53 the sum rounds back to 2^53, so the counter
    sent is not the decimal string of the counter plus one, and an amount
    of 10^21 is sent in exponent form, which is no decimal string. *)
Lemma large_numbers_leave_the_decimal_form :
TezosOperations.sendTransactionOperation
  (Sample.node 9007199254740992 Sample.accepted) "zeronet"
  Sample.keyStore "tz1Receiver" 1000000000000000000000 100 Sample.world
= TezosOperations.sendOperation
    (Sample.node 9007199254740992 Sample.accepted) "zeronet"
    [JObj [("destination", JStr "tz1Receiver");
           ("amount", JStr "1e+21");
           ("storage_limit", JStr "0");
           ("gas_limit", JStr "120");
           ("counter", JStr "9007199254740992");
           ("fee", JStr "100");
           ("source", JStr "tz1Sender");
           ("kind", JStr "transaction");
           ("parameters", JObj [("prim", JStr "Unit"); ("args", JArr [])])]]
    Sample.keyStore
    {| TezosNode.remote := 2%nat;
       TezosNode.calls := [TezosNode.GetBlockHead "zeronet";
                           TezosNode.GetAccountForBlock "zeronet" "BLhead" "tz1Sender"] |}
/\ TezosTypes.counter (Sample.account 9007199254740992) = 9007199254740992
/\ decimal_value "9007199254740992" <> Some (9007199254740992 + 1)
/\ decimal_value "1e+21" = None.
Proof. vm_compute. repeat split. discriminate. Qed.



End OnTheSampleNode.

(** ** The sample collaborators honour the contracts *)

Lemma stripPrefix_app (p s : string) : Sample.stripPrefix p (p +:+ s) = Some s.
Proof.
  induction p as [|c p IH]; [now destruct s|].
  change (String c p +:+ s) with (String c (p +:+ s)).
  cbn [Sample.stripPrefix]. now rewrite Ascii.eqb_refl.
Qed.

Lemma splitUnary_unary (n : nat) (rest : Buffer) :
  Sample.splitUnary (Sample.unary n rest) = Some (n, rest).
Proof.
  induction n as [|n IH]; cbn [Sample.unary Sample.splitUnary]; [reflexivity|].
  now rewrite IH.
Qed.

Lemma unseal_seal (m p q : string) (s : Buffer) :
  Sample.unseal (Sample.seal m p s) q s
  = if String.eqb p q then Normal m else Throw DecryptionFailure.
Proof.
  unfold Sample.unseal, Sample.seal. rewrite splitUnary_unary.
  rewrite take_app_length, drop_app_length, !string_of_list_byte_of_string.
  destruct (String.eqb_spec p q) as [->|Hne].
  - now rewrite Nat.eqb_refl.
  - now rewrite andb_false_r.
Qed.

Lemma sample_cryptoUtils_laws : CryptoUtilsLaws Sample.cryptoUtils.
Proof.
  split.
  - intros b p. cbn. rewrite stripPrefix_app.
    destruct b as [|x b]; [reflexivity|].
    change (from_hex (to_hex (x :: b)) = Normal (x :: b)).
    now apply from_hex_to_hex.
  - intros m p s. cbn. rewrite unseal_seal. now rewrite String.eqb_refl.
  - intros m p q s Hne. cbn. rewrite unseal_seal.
    destruct (String.eqb_spec p q); [congruence | reflexivity].
Qed.

Lemma append_empty_r (s : string) : s +:+ "" = s.
Proof.
  induction s as [|c s IH]; [reflexivity|].
  change (String c (s +:+ "") = String c s). now rewrite IH.
Qed.

Lemma append_snoc (s t : string) (c : ascii) :
  (s +:+ String c "") +:+ t = s +:+ String c t.
Proof.
  induction s as [|d s IH]; [reflexivity|].
  change (String d ((s +:+ String c "") +:+ t) = String d (s +:+ String c t)).
  now rewrite IH.
Qed.

Lemma readStrings_writeString (s rest cur : string) :
  Sample.readStrings (Sample.writeString s rest) cur
  = match Sample.readStrings rest "" with
    | Some l => Some ((cur +:+ s) :: l)
    | None => None
    end.
Proof.
  revert cur. induction s as [|c s IH]; intros cur.
  - cbn [Sample.writeString Sample.readStrings].
    change (Ascii.eqb ";" ";") with true. cbv iota.
    now rewrite append_empty_r.
  - cbn [Sample.writeString Sample.readStrings].
    change (Ascii.eqb "c" ";") with false. change (Ascii.eqb "c" "c") with true.
    cbv iota. rewrite IH, append_snoc. reflexivity.
Qed.

Lemma readStrings_writeStrings (l : list string) :
  Sample.readStrings (Sample.writeStrings l) "" = Some l.
Proof.
  induction l as [|s l IH]; [reflexivity|].
  cbn [Sample.writeStrings]. now rewrite readStrings_writeString, IH.
Qed.

Lemma regroup_flatten (ids : list KeyStore) :
  Sample.regroup (Sample.flatten ids) = Some ids.
Proof.
  induction ids as [|[pk sk pkh] ids IH]; [reflexivity|].
  cbn [Sample.flatten Sample.regroup publicKey privateKey publicKeyHash].
  now rewrite IH.
Qed.

Lemma sample_json_laws : JSONLaws Sample.json.
Proof.
  split.
  - intros ids. cbn. now rewrite readStrings_writeStrings, regroup_flatten.
  - intros [v sa ci k]. cbn [parse_wallet stringify_wallet Sample.json].
    now rewrite readStrings_writeStrings.
Qed.

(** ** The wallet codec *)

Section WalletCodec.
Context {CU : CryptoUtils} {J : JSON}.
Context (CL : CryptoUtilsLaws CU) (JL : JSONLaws J).


(** Loading a file that holds a wallet record: everything up to the
    decryption succeeds, whatever the passphrase. *)
Lemma loadWallet_of_record (filename passphrase q : string)
    (wallet : Wallet) (fresh : Buffer) (h : Host) :
  files h !! filename = Some (stringify_wallet (walletRecord wallet passphrase fresh)) ->
  TezosWallet.loadWallet filename q h
  = (try plaintext <- decryptMessage
                        (encryptMessage (stringify_identities (identities wallet))
                                        passphrase fresh) q fresh;
     try keys <- parse_identities plaintext;
     Normal {| identities := keys |}, h).
Proof.
  intros Hfile. unfold TezosWallet.loadWallet, fsPromises.readFile, bindA, sync, resolve.
  rewrite Hfile, parse_stringify_wallet.
  cbn [walletRecord ciphertext salt]. rewrite !decode_encode.
  destruct (decryptMessage _ q fresh) as [plaintext|]; [|reflexivity].
  cbn [bindC]. destruct (parse_identities plaintext); reflexivity.
Qed.

Lemma saveWallet_writes (filename passphrase : string) (wallet : Wallet) (h : Host) :
  filename ∉ locked h ->
  TezosWallet.saveWallet filename wallet passphrase h
  = TezosWallet.loadWallet filename passphrase
      {| files := <[filename :=
                      stringify_wallet
                        (walletRecord wallet passphrase
                           (fst (generateSaltForPwHash (entropy h))))]> (files h);
         locked := locked h;
         entropy := snd (generateSaltForPwHash (entropy h)) |}.
Proof.
  intros Hfree.
  unfold TezosWallet.saveWallet, TezosWallet.drawSalt, fsPromises.writeFile, bindA.
  cbv zeta. destruct (generateSaltForPwHash (entropy h)) as [fresh e'].
  cbn [files locked entropy fst snd].
  destruct (decide (filename ∈ locked h)); [contradiction | reflexivity].
Qed.

Lemma loadWallet_right_passphrase (filename passphrase : string)
    (wallet : Wallet) (fresh : Buffer) (h : Host) :
  files h !! filename = Some (stringify_wallet (walletRecord wallet passphrase fresh)) ->
  TezosWallet.loadWallet filename passphrase h
  = (Normal {| identities := identities wallet |}, h).
Proof.
  intros Hfile. rewrite (loadWallet_of_record _ _ _ _ _ _ Hfile).
  rewrite decrypt_encrypt. cbn [bindC].
  now rewrite parse_stringify_identities.
Qed.

(** The host after [saveWallet] wrote the record. *)
Lemma saveWallet_resolves (filename passphrase : string) (wallet : Wallet) (h : Host) :
  filename ∉ locked h ->
  TezosWallet.saveWallet filename wallet passphrase h
  = (Normal {| identities := identities wallet |},
     {| files := <[filename :=
                     stringify_wallet
                       (walletRecord wallet passphrase
                          (fst (generateSaltForPwHash (entropy h))))]> (files h);
        locked := locked h;
        entropy := snd (generateSaltForPwHash (entropy h)) |}).
Proof.
  intros Hfree. rewrite (saveWallet_writes _ _ _ _ Hfree).
  eapply loadWallet_right_passphrase. cbn [files]. apply lookup_insert_eq.
Qed.

(** C6. On a path that accepts the write, [saveWallet] stores the text
    of the record (version "1", the encoded fresh salt, the encoded
    encryption of the serialized identities under the passphrase and that
    salt, kdf "Argon2") under the file name, and its outcome is the
    outcome of loading that file again with the same passphrase: the
    wallet's identities, unchanged. A later [loadWallet] with the
    passphrase returns them too, and a wallet made by [createWallet]
    loads as the empty list. *)
Theorem saveWallet_roundtrip :
  forall (filename passphrase : string) (wallet : Wallet) (h : Host),
    filename ∉ locked h ->
    let fresh := fst (generateSaltForPwHash (entropy h)) in
    let run := TezosWallet.saveWallet filename wallet passphrase h in
    files (snd run)
    = <[filename := stringify_wallet (walletRecord wallet passphrase fresh)]> (files h)
    /\ fst run = fst (TezosWallet.loadWallet filename passphrase (snd run))
    /\ fst run = Normal {| identities := identities wallet |}
    /\ TezosWallet.loadWallet filename passphrase (snd run)
       = (Normal {| identities := identities wallet |}, snd run)
    /\ (let created := TezosWallet.createWallet filename passphrase h in
        fst created = Normal {| identities := [] |}
        /\ TezosWallet.loadWallet filename passphrase (snd created)
           = (Normal {| identities := [] |}, snd created)).
Proof.
  intros filename passphrase wallet h Hfree fresh run.
  assert (Hstored : forall wl : Wallet,
             files (snd (TezosWallet.saveWallet filename wl passphrase h)) !! filename
             = Some (stringify_wallet (walletRecord wl passphrase fresh))).
  { intros wl. rewrite (saveWallet_resolves _ _ _ _ Hfree).
    cbn [snd files]. apply lookup_insert_eq. }
  assert (Hcreate : TezosWallet.createWallet filename passphrase h
                    = (Normal {| identities := [] |},
                       snd (TezosWallet.saveWallet filename {| identities := [] |}
                              passphrase h))).
  { unfold TezosWallet.createWallet. cbv zeta.
    erewrite bindA_Normal by (apply saveWallet_resolves, Hfree).
    now rewrite (saveWallet_resolves _ _ _ _ Hfree). }
  subst run. rewrite (loadWallet_right_passphrase _ _ _ _ _ (Hstored wallet)).
  cbv zeta. rewrite Hcreate. cbn [fst snd].
  rewrite (loadWallet_right_passphrase _ _ _ _ _ (Hstored {| identities := [] |})).
  rewrite (saveWallet_resolves _ _ _ _ Hfree). cbn [fst snd files].
  repeat split.
Qed.

(** C7. A wallet file written under passphrase [p] does not open under
    another passphrase [q]: [loadWallet] throws the decryption failure
    and returns no wallet. *)
Theorem loadWallet_wrong_passphrase :
  forall (filename p q : string) (wallet : Wallet) (h : Host),
    filename ∉ locked h ->
    q <> p ->
    let stored := snd (TezosWallet.saveWallet filename wallet p h) in
    TezosWallet.loadWallet filename q stored = (Throw DecryptionFailure, stored)
    /\ (forall loaded : Wallet,
           fst (TezosWallet.loadWallet filename q stored) <> Normal loaded).
Proof.
  intros filename p q wallet h Hfree Hne stored.
  assert (Hstored : files stored !! filename
                    = Some (stringify_wallet
                              (walletRecord wallet p
                                 (fst (generateSaltForPwHash (entropy h)))))).
  { subst stored. rewrite (saveWallet_resolves _ _ _ _ Hfree).
    cbn [snd files]. apply lookup_insert_eq. }
  rewrite (loadWallet_of_record _ _ _ _ _ _ Hstored).
  rewrite (decrypt_wrong_passphrase _ _ _ _ Hne). cbn [bindC fst].
  split; [reflexivity | discriminate].
Qed.

End WalletCodec.

(** ** Witnesses of the wallet theorems on the sample host *)

Section OnTheSampleHost.
#[local] Existing Instance Sample.cryptoUtils.
#[local] Existing Instance Sample.json.

Lemma saveWallet_roundtrip_witness :
fst (TezosWallet.saveWallet "wallet.json"
       {| identities := [Sample.alice; Sample.bob] |} "correct horse" Sample.host)
= Normal {| identities := [Sample.alice; Sample.bob] |}
/\ fst (TezosWallet.loadWallet "wallet.json" "correct horse"
          (snd (TezosWallet.saveWallet "wallet.json"
                  {| identities := [Sample.alice; Sample.bob] |} "correct horse"
                  Sample.host)))
   = Normal {| identities := [Sample.alice; Sample.bob] |}.
Proof.
assert (Hfree : "wallet.json" ∉ locked Sample.host) by apply not_elem_of_empty.
pose proof (saveWallet_roundtrip sample_cryptoUtils_laws sample_json_laws
              "wallet.json" "correct horse"
              {| identities := [Sample.alice; Sample.bob] |} Sample.host Hfree) as W.
cbv zeta in W. destruct W as (_ & _ & Hsave & Hload & _).
split; [exact Hsave | now rewrite Hload].
Defined.

Lemma loadWallet_wrong_passphrase_witness :
fst (TezosWallet.loadWallet "wallet.json" "battery staple"
       (snd (TezosWallet.saveWallet "wallet.json"
               {| identities := [Sample.alice; Sample.bob] |} "correct horse"
               Sample.host)))
= Throw DecryptionFailure.
Proof.
assert (Hfree : "wallet.json" ∉ locked Sample.host) by apply not_elem_of_empty.
assert (Hne : "battery staple" <> "correct horse") by discriminate.
pose proof (loadWallet_wrong_passphrase sample_cryptoUtils_laws sample_json_laws
              "wallet.json" "correct horse" "battery staple"
              {| identities := [Sample.alice; Sample.bob] |} Sample.host Hfree Hne) as W.
cbv zeta in W. destruct W as (Hload & _). now rewrite Hload.
Defined.

End OnTheSampleHost.

(** * Further properties *)

(** ** Every run of the pipeline *)

Lemma check_accepts_index0 (appliedOp : JsVal) :
  checkAppliedOperationResults appliedOp = Normal tt ->
  exists firstOp, getIndex0 appliedOp = Normal firstOp.
Proof.
  unfold checkAppliedOperationResults.
  destruct (getIndex0 appliedOp) as [firstOp|]; [eauto | discriminate].
Qed.

Section EveryRun.
Context {CU : CryptoUtils} {NaCl : Sodium}.
Context {R : Type} (node : TezosNode.Remote R).

(** The stages at which a run of [sendOperation] can stop, with the log
    it leaves. [stoppedAt network operations keyStore w outcome w'] lists
    them in the order of the source. *)
Lemma sendOperation_cases (network : string) (operations : list JsVal)
    (keyStore : KeyStore) (r0 : R) (log : list TezosNode.Call) :
  let run := TezosOperations.sendOperation node network operations keyStore
               {| TezosNode.remote := r0; TezosNode.calls := log |} in
  let head := TezosNode.GetBlockHead network in
  (exists e r1,
      TezosNode.onGetBlockHead node network r0 = (Throw e, r1)
      /\ run = (Throw e, {| TezosNode.remote := r1;
                            TezosNode.calls := (log ++ [head])%list |}))
  \/ exists blockHead r1,
      TezosNode.onGetBlockHead node network r0 = (Normal blockHead, r1)
      /\ let forge := TezosNode.ForgeOperation network
                        (forgePayload blockHead operations) in
         ((exists e r2,
             TezosNode.onForgeOperation node network
               (forgePayload blockHead operations) r1 = (Throw e, r2)
             /\ run = (Throw e, {| TezosNode.remote := r2;
                                   TezosNode.calls := (log ++ [head; forge])%list |}))
          \/ exists forged r2,
             TezosNode.onForgeOperation node network
               (forgePayload blockHead operations) r1 = (Normal forged, r2)
             /\ ((exists e,
                    TezosOperations.signOperationGroup forged keyStore = Throw e
                    /\ run = (Throw e,
                              {| TezosNode.remote := r2;
                                 TezosNode.calls := (log ++ [head; forge])%list |}))
                 \/ exists signedOpGroup,
                    TezosOperations.signOperationGroup forged keyStore
                    = Normal signedOpGroup
                    /\ let apply := TezosNode.ApplyOperation network
                                      (applyPayload blockHead operations signedOpGroup) in
                       ((exists e r3,
                           TezosNode.onApplyOperation node network
                             (applyPayload blockHead operations signedOpGroup) r2
                           = (Throw e, r3)
                           /\ run = (Throw e,
                                     {| TezosNode.remote := r3;
                                        TezosNode.calls :=
                                          (log ++ [head; forge; apply])%list |}))
                        \/ exists appliedOp r3,
                           TezosNode.onApplyOperation node network
                             (applyPayload blockHead operations signedOpGroup) r2
                           = (Normal appliedOp, r3)
                           /\ ((exists e,
                                  checkAppliedOperationResults appliedOp = Throw e
                                  /\ run = (Throw e,
                                            {| TezosNode.remote := r3;
                                               TezosNode.calls :=
                                                 (log ++ [head; forge; apply])%list |}))
                               \/ (checkAppliedOperationResults appliedOp = Normal tt
                                   /\ let inject :=
                                        TezosNode.InjectOperation network
                                          (to_hex (bytes signedOpGroup)) in
                                      exists answer r4,
                                        TezosNode.onInjectOperation node network
                                          (to_hex (bytes signedOpGroup)) r3
                                        = (answer, r4)
                                        /\ TezosNode.remote (snd run) = r4
                                        /\ TezosNode.calls (snd run)
                                           = (log ++ [head; forge; apply; inject])%list
                                        /\ fst run
                                           = (try injected <- answer;
                                              try firstOp <- getIndex0 appliedOp;
                                              Normal {| results := firstOp;
                                                        operationGroupID := injected |})))))).
Proof.
  intros run head.
  assert (E : run = TezosOperations.sendOperation node network operations keyStore
                      {| TezosNode.remote := r0; TezosNode.calls := log |})
    by reflexivity.
  clearbody run. subst head. unfold TezosOperations.sendOperation in E.
  destruct (TezosNode.onGetBlockHead node network r0) as [[blockHead|e] r1] eqn:Hhead.
  2: { left. exists e, r1. split; [reflexivity|].
       erewrite bindA_Throw in E
         by (unfold TezosNode.getBlockHead; apply rpc_answer, Hhead).
       exact E. }
  right. exists blockHead, r1. split; [reflexivity|]. cbv zeta.
  erewrite bindA_Normal in E
    by (unfold TezosNode.getBlockHead; apply rpc_answer, Hhead).
  destruct (TezosNode.onForgeOperation node network
              (forgePayload blockHead operations) r1) as [[forged|e] r2] eqn:Hforge.
  2: { left. exists e, r2. split; [reflexivity|].
       erewrite bindA_Throw in E
         by (unfold TezosOperations.forgeOperations, TezosNode.forgeOperation;
             cbv zeta; apply rpc_answer, Hforge).
       now rewrite <- app_assoc in E. }
  right. exists forged, r2. split; [reflexivity|].
  erewrite bindA_Normal in E
    by (unfold TezosOperations.forgeOperations, TezosNode.forgeOperation;
        cbv zeta; apply rpc_answer, Hforge).
  rewrite <- app_assoc in E. cbn [app] in E.
  destruct (TezosOperations.signOperationGroup forged keyStore)
    as [signedOpGroup|e] eqn:Hsign.
  2: { left. exists e. split; [reflexivity|].
       erewrite bindA_Throw in E by (unfold sync; try rewrite Hsign; reflexivity).
       exact E. }
  right. exists signedOpGroup. split; [reflexivity|]. cbv zeta.
  erewrite bindA_Normal in E by (unfold sync; try rewrite Hsign; reflexivity).
  cbv zeta in E.
  destruct (TezosNode.onApplyOperation node network
              (applyPayload blockHead operations signedOpGroup) r2)
    as [[appliedOp|e] r3] eqn:Happly.
  2: { left. exists e, r3. split; [reflexivity|].
       erewrite bindA_Throw in E
         by (unfold TezosOperations.applyOperation, TezosNode.applyOperation;
             cbv zeta; apply rpc_answer, Happly).
       now rewrite <- app_assoc in E. }
  right. exists appliedOp, r3. split; [reflexivity|].
  erewrite bindA_Normal in E
    by (unfold TezosOperations.applyOperation, TezosNode.applyOperation;
        cbv zeta; apply rpc_answer, Happly).
  rewrite <- app_assoc in E. cbn [app] in E.
  destruct (checkAppliedOperationResults appliedOp) as [[]|e] eqn:Hcheck.
  2: { left. exists e. split; [reflexivity|].
       erewrite bindA_Throw in E by (unfold sync; try rewrite Hcheck; reflexivity).
       exact E. }
  right. split; [reflexivity|].
  erewrite bindA_Normal in E by (unfold sync; try rewrite Hcheck; reflexivity).
  destruct (TezosNode.onInjectOperation node network
              (to_hex (bytes signedOpGroup)) r3) as [answer r4] eqn:Hinject.
  exists answer, r4. split; [reflexivity|].
  unfold bindA at 1 in E.
  unfold TezosOperations.injectOperation, TezosNode.injectOperation in E.
  cbv zeta in E. rewrite (rpc_answer _ _ _ _ _ _ Hinject) in E.
  rewrite <- app_assoc in E. cbn [app] in E.
  destruct answer as [injected|e]; [|subst run; repeat split].
  unfold bindA, sync, resolve in E.
  destruct (getIndex0 appliedOp); subst run; repeat split.
Qed.

(** X1. Whatever the node answers, a run of [sendOperation] either makes
    no inject call at all, or makes exactly one, after the head, the
    forging, the signing and the dry run succeeded and the validator
    accepted the dry-run answer; the payload is the hex text of the signed
    bytes. *)
Theorem sendOperation_injects_only_validated :
  forall (network : string) (operations : list JsVal) (keyStore : KeyStore)
         (r0 : R) (log : list TezosNode.Call),
    let run := TezosOperations.sendOperation node network operations keyStore
                 {| TezosNode.remote := r0; TezosNode.calls := log |} in
    injections (TezosNode.calls (snd run)) = injections log
    \/ exists blockHead r1 forged r2 signedOpGroup appliedOp r3,
         TezosNode.onGetBlockHead node network r0 = (Normal blockHead, r1)
         /\ TezosNode.onForgeOperation node network
              (forgePayload blockHead operations) r1 = (Normal forged, r2)
         /\ TezosOperations.signOperationGroup forged keyStore = Normal signedOpGroup
         /\ TezosNode.onApplyOperation node network
              (applyPayload blockHead operations signedOpGroup) r2
            = (Normal appliedOp, r3)
         /\ checkAppliedOperationResults appliedOp = Normal tt
         /\ injections (TezosNode.calls (snd run))
            = (injections log
               ++ [TezosNode.InjectOperation network (to_hex (bytes signedOpGroup))])%list.
Proof.
  intros network operations keyStore r0 log run.
  assert (Hquiet : forall l, injections l = [] ->
                             injections (log ++ l)%list = injections log).
  { intros l Hl. unfold injections in *. now rewrite List.filter_app, Hl, app_nil_r. }
  destruct (sendOperation_cases network operations keyStore r0 log)
    as [(e & r1 & _ & E)
       |(blockHead & r1 & Hhead &
         [(e & r2 & _ & E)
         |(forged & r2 & Hforge &
           [(e & _ & E)
           |(sg & Hsign &
             [(e & r3 & _ & E)
             |(appliedOp & r3 & Happly &
               [(e & _ & E)
               |(Hcheck & answer & r4 & _ & _ & Hcalls & _)])])])])];
    fold run in E || fold run in Hcalls.
  1-5: left; rewrite E; cbn [snd TezosNode.calls]; now apply Hquiet.
  right. exists blockHead, r1, forged, r2, sg, appliedOp, r3.
  repeat split; try assumption.
  rewrite Hcalls. unfold injections. now rewrite List.filter_app.
Qed.

(** X2. When the forged text cannot be signed (the private key does not
    decode, the text is not hexadecimal, the signing primitive refuses the
    key), the run stops with that exception after the forge call: the dry
    run is not asked for and nothing is injected. *)
Theorem sendOperation_sign_failure :
  forall (network : string) (operations : list JsVal) (keyStore : KeyStore)
         (r0 r1 r2 : R) (log : list TezosNode.Call)
         (blockHead : TezosTypes.BlockMetadata) (forged : string) (e : Exn),
    TezosNode.onGetBlockHead node network r0 = (Normal blockHead, r1) ->
    TezosNode.onForgeOperation node network (forgePayload blockHead operations) r1
    = (Normal forged, r2) ->
    TezosOperations.signOperationGroup forged keyStore = Throw e ->
    TezosOperations.sendOperation node network operations keyStore
      {| TezosNode.remote := r0; TezosNode.calls := log |}
    = (Throw e,
       {| TezosNode.remote := r2;
          TezosNode.calls :=
            (log ++ [TezosNode.GetBlockHead network;
                     TezosNode.ForgeOperation network
                       (forgePayload blockHead operations)])%list |}).
Proof.
  intros network operations keyStore r0 r1 r2 log blockHead forged e
         Hhead Hforge Hsign.
  unfold TezosOperations.sendOperation.
  erewrite bindA_Normal by (unfold TezosNode.getBlockHead; apply rpc_answer, Hhead).
  erewrite bindA_Normal
    by (unfold TezosOperations.forgeOperations, TezosNode.forgeOperation;
        cbv zeta; apply rpc_answer, Hforge).
  erewrite bindA_Throw by (unfold sync; rewrite Hsign; reflexivity).
  now rewrite <- app_assoc.
Qed.

(** X3. A call the node refuses ends the run with the node's exception,
    unchanged, and no later call is made: after a refused head fetch the
    log holds that fetch only; after a refused forging, head and forge;
    after a refused dry run, head, forge and apply; a refused injection
    comes after a dry run the validator accepted. *)
Theorem sendOperation_remote_failure :
  forall (network : string) (operations : list JsVal) (keyStore : KeyStore)
         (r0 : R) (log : list TezosNode.Call),
    let run := TezosOperations.sendOperation node network operations keyStore
                 {| TezosNode.remote := r0; TezosNode.calls := log |} in
    (forall e r1,
        TezosNode.onGetBlockHead node network r0 = (Throw e, r1) ->
        run = (Throw e,
               {| TezosNode.remote := r1;
                  TezosNode.calls := (log ++ [TezosNode.GetBlockHead network])%list |}))
    /\ (forall blockHead r1 e r2,
        TezosNode.onGetBlockHead node network r0 = (Normal blockHead, r1) ->
        TezosNode.onForgeOperation node network (forgePayload blockHead operations) r1
        = (Throw e, r2) ->
        run = (Throw e,
               {| TezosNode.remote := r2;
                  TezosNode.calls :=
                    (log ++ [TezosNode.GetBlockHead network;
                             TezosNode.ForgeOperation network
                               (forgePayload blockHead operations)])%list |}))
    /\ (forall blockHead r1 forged r2 signedOpGroup e r3,
        TezosNode.onGetBlockHead node network r0 = (Normal blockHead, r1) ->
        TezosNode.onForgeOperation node network (forgePayload blockHead operations) r1
        = (Normal forged, r2) ->
        TezosOperations.signOperationGroup forged keyStore = Normal signedOpGroup ->
        TezosNode.onApplyOperation node network
          (applyPayload blockHead operations signedOpGroup) r2 = (Throw e, r3) ->
        run = (Throw e,
               {| TezosNode.remote := r3;
                  TezosNode.calls :=
                    (log ++ [TezosNode.GetBlockHead network;
                             TezosNode.ForgeOperation network
                               (forgePayload blockHead operations);
                             TezosNode.ApplyOperation network
                               (applyPayload blockHead operations signedOpGroup)])%list |}))
    /\ (forall blockHead r1 forged r2 signedOpGroup appliedOp r3 e r4,
        TezosNode.onGetBlockHead node network r0 = (Normal blockHead, r1) ->
        TezosNode.onForgeOperation node network (forgePayload blockHead operations) r1
        = (Normal forged, r2) ->
        TezosOperations.signOperationGroup forged keyStore = Normal signedOpGroup ->
        TezosNode.onApplyOperation node network
          (applyPayload blockHead operations signedOpGroup) r2 = (Normal appliedOp, r3) ->
        TezosNode.onInjectOperation node network (to_hex (bytes signedOpGroup)) r3
        = (Throw e, r4) ->
        checkAppliedOperationResults appliedOp = Normal tt ->
        run = (Throw e,
               {| TezosNode.remote := r4;
                  TezosNode.calls :=
                    (log ++ [TezosNode.GetBlockHead network;
                             TezosNode.ForgeOperation network
                               (forgePayload blockHead operations);
                             TezosNode.ApplyOperation network
                               (applyPayload blockHead operations signedOpGroup);
                             TezosNode.InjectOperation network
                               (to_hex (bytes signedOpGroup))])%list |})).
Proof.
  intros network operations keyStore r0 log run. subst run.
  unfold TezosOperations.sendOperation. repeat split.
  - intros e r1 Hhead.
    erewrite bindA_Throw by (unfold TezosNode.getBlockHead; apply rpc_answer, Hhead).
    reflexivity.
  - intros blockHead r1 e r2 Hhead Hforge.
    erewrite bindA_Normal by (unfold TezosNode.getBlockHead; apply rpc_answer, Hhead).
    erewrite bindA_Throw
      by (unfold TezosOperations.forgeOperations, TezosNode.forgeOperation;
          cbv zeta; apply rpc_answer, Hforge).
    now rewrite <- app_assoc.
  - intros blockHead r1 forged r2 sg e r3 Hhead Hforge Hsign Happly.
    erewrite bindA_Normal by (unfold TezosNode.getBlockHead; apply rpc_answer, Hhead).
    erewrite bindA_Normal
      by (unfold TezosOperations.forgeOperations, TezosNode.forgeOperation;
          cbv zeta; apply rpc_answer, Hforge).
    erewrite bindA_Normal by (unfold sync; rewrite Hsign; reflexivity).
    cbv zeta.
    erewrite bindA_Throw
      by (unfold TezosOperations.applyOperation, TezosNode.applyOperation;
          cbv zeta; apply rpc_answer, Happly).
    now rewrite <- !app_assoc.
  - intros blockHead r1 forged r2 sg appliedOp r3 e r4
           Hhead Hforge Hsign Happly Hinject Hcheck.
    erewrite bindA_Normal by (unfold TezosNode.getBlockHead; apply rpc_answer, Hhead).
    erewrite bindA_Normal
      by (unfold TezosOperations.forgeOperations, TezosNode.forgeOperation;
          cbv zeta; apply rpc_answer, Hforge).
    erewrite bindA_Normal by (unfold sync; rewrite Hsign; reflexivity).
    cbv zeta.
    erewrite bindA_Normal
      by (unfold TezosOperations.applyOperation, TezosNode.applyOperation;
          cbv zeta; apply rpc_answer, Happly).
    erewrite bindA_Normal by (unfold sync; rewrite Hcheck; reflexivity).
    erewrite bindA_Throw
      by (unfold TezosOperations.injectOperation, TezosNode.injectOperation;
          cbv zeta; apply rpc_answer, Hinject).
    now rewrite <- !app_assoc.
Qed.

(** X4. A run that resolves made exactly four calls, in the order head,
    forge, apply, inject. Forge and apply carry the hash of the head
    fetched in this run as branch and the operations as given; apply
    carries the signature of the group signed from the forged text. The
    result holds the first element of the dry-run answer and, as group
    id, the node's answer to the injection. *)
Theorem sendOperation_resolved_run :
  forall (network : string) (operations : list JsVal) (keyStore : KeyStore)
         (w w' : TezosNode.World R) (result : OperationResult),
    TezosOperations.sendOperation node network operations keyStore w
    = (Normal result, w') ->
    exists blockHead forged signedOpGroup appliedOp r1 r2 r3,
      TezosNode.onGetBlockHead node network (TezosNode.remote w) = (Normal blockHead, r1)
      /\ TezosOperations.signOperationGroup forged keyStore = Normal signedOpGroup
      /\ TezosNode.calls w'
         = (TezosNode.calls w
            ++ [TezosNode.GetBlockHead network;
                TezosNode.ForgeOperation network
                  (JObj [("branch", JStr (TezosTypes.hash blockHead));
                         ("contents", JArr operations)]);
                TezosNode.ApplyOperation network
                  (JArr [JObj [("protocol", JStr (TezosTypes.protocol blockHead));
                               ("branch", JStr (TezosTypes.hash blockHead));
                               ("contents", JArr operations);
                               ("signature", JStr (signature signedOpGroup))]]);
                TezosNode.InjectOperation network (to_hex (bytes signedOpGroup))])%list
      /\ TezosNode.onForgeOperation node network (forgePayload blockHead operations) r1
         = (Normal forged, r2)
      /\ TezosNode.onApplyOperation node network
           (applyPayload blockHead operations signedOpGroup) r2 = (Normal appliedOp, r3)
      /\ getIndex0 appliedOp = Normal (results result)
      /\ TezosNode.onInjectOperation node network (to_hex (bytes signedOpGroup)) r3
         = (Normal (operationGroupID result), TezosNode.remote w').
Proof.
  intros network operations keyStore w w' result Hrun.
  apply sendOperation_resolved_inv in Hrun
    as (blockHead & r1 & forged & r2 & sg & appliedOp & r3 & injected & r4 & firstOp
        & Hhead & Hforge & Hsign & Happly & Hcheck & Hinject & Hfirst & -> & Hr & Hcalls).
  exists blockHead, forged, sg, appliedOp, r1, r2, r3.
  cbn [results operationGroupID]. rewrite Hr.
  repeat split; assumption.
Qed.

End EveryRun.

(** ** The wrappers, in every run *)

Section Wrappers.
Context {CU : CryptoUtils} {NaCl : Sodium}.
Context {R : Type} (node : TezosNode.Remote R).

(** The two fetches that open the transaction, delegation, origination and
    reveal wrappers. *)
Lemma fetch_then {A} (network accountID : string) (r0 : R) (log : list TezosNode.Call)
    (k : TezosTypes.BlockMetadata -> TezosTypes.Account
         -> Async (TezosNode.World R) A) :
  bindA (TezosNode.getBlockHead node network)
    (fun bh => bindA (TezosNode.getAccountForBlock node network
                        (TezosTypes.hash bh) accountID)
                 (fun acct => k bh acct))
    {| TezosNode.remote := r0; TezosNode.calls := log |}
  = match TezosNode.onGetBlockHead node network r0 with
    | (Throw e, r1) =>
        (Throw e, {| TezosNode.remote := r1;
                     TezosNode.calls := (log ++ [TezosNode.GetBlockHead network])%list |})
    | (Normal bh, r1) =>
        let fetched r2 :=
          {| TezosNode.remote := r2;
             TezosNode.calls :=
               (log ++ [TezosNode.GetBlockHead network;
                        TezosNode.GetAccountForBlock network
                          (TezosTypes.hash bh) accountID])%list |} in
        match TezosNode.onGetAccountForBlock node network
                (TezosTypes.hash bh) accountID r1 with
        | (Throw e, r2) => (Throw e, fetched r2)
        | (Normal acct, r2) => k bh acct (fetched r2)
        end
    end.
Proof.
  destruct (TezosNode.onGetBlockHead node network r0) as [[bh|e] r1] eqn:Hhead.
  - erewrite bindA_Normal
      by (unfold TezosNode.getBlockHead; apply rpc_answer, Hhead).
    cbv zeta.
    destruct (TezosNode.onGetAccountForBlock node network (TezosTypes.hash bh)
                accountID r1) as [[acct|e] r2] eqn:Hacct.
    + erewrite bindA_Normal
        by (unfold TezosNode.getAccountForBlock; apply rpc_answer, Hacct).
      now rewrite <- app_assoc.
    + erewrite bindA_Throw
        by (unfold TezosNode.getAccountForBlock; apply rpc_answer, Hacct).
      now rewrite <- app_assoc.
  - erewrite bindA_Throw
      by (unfold TezosNode.getBlockHead; apply rpc_answer, Hhead).
    reflexivity.
Qed.

(** X5. In the transaction, delegation, origination and reveal wrappers a
    refused head fetch, or a refused account fetch, ends the run with the
    node's exception before [sendOperation] starts: nothing is forged,
    applied or injected. *)
Theorem wrappers_stop_at_refused_fetch :
  forall (network : string) (keyStore : KeyStore) (r0 : R)
         (log : list TezosNode.Call) (to delegate : string) (amount fee : Z)
         (spendable delegatable : bool)
         (run : Completion OperationResult * TezosNode.World R),
    In run
       [TezosOperations.sendTransactionOperation node network keyStore to amount fee
          {| TezosNode.remote := r0; TezosNode.calls := log |};
        TezosOperations.sendDelegationOperation node network keyStore delegate fee
          {| TezosNode.remote := r0; TezosNode.calls := log |};
        TezosOperations.sendOriginationOperation node network keyStore
          amount delegate spendable delegatable fee
          {| TezosNode.remote := r0; TezosNode.calls := log |};
        TezosOperations.sendKeyRevealOperation node network keyStore fee
          {| TezosNode.remote := r0; TezosNode.calls := log |}] ->
    (forall e r1,
        TezosNode.onGetBlockHead node network r0 = (Throw e, r1) ->
        run = (Throw e,
               {| TezosNode.remote := r1;
                  TezosNode.calls := (log ++ [TezosNode.GetBlockHead network])%list |}))
    /\ (forall blockHead r1 e r2,
        TezosNode.onGetBlockHead node network r0 = (Normal blockHead, r1) ->
        TezosNode.onGetAccountForBlock node network
          (TezosTypes.hash blockHead) (publicKeyHash keyStore) r1 = (Throw e, r2) ->
        run = (Throw e,
               {| TezosNode.remote := r2;
                  TezosNode.calls :=
                    (log ++ [TezosNode.GetBlockHead network;
                             TezosNode.GetAccountForBlock network
                               (TezosTypes.hash blockHead)
                               (publicKeyHash keyStore)])%list |})).
Proof.
  intros network keyStore r0 log to delegate amount fee spendable delegatable run Hrun.
  assert (Hshape : exists k : TezosTypes.BlockMetadata -> TezosTypes.Account
                               -> Async (TezosNode.World R) OperationResult,
             run = bindA (TezosNode.getBlockHead node network)
                     (fun bh => bindA (TezosNode.getAccountForBlock node network
                                         (TezosTypes.hash bh) (publicKeyHash keyStore))
                                  (fun acct => k bh acct))
                     {| TezosNode.remote := r0; TezosNode.calls := log |}).
  { cbn [In] in Hrun.
    destruct Hrun as [<-|[<-|[<-|[<-|[]]]]]; eexists (fun bh acct => _); reflexivity. }
  destruct Hshape as (k & ->). rewrite fetch_then. split.
  - intros e r1 ->. reflexivity.
  - intros blockHead r1 e r2 -> Hacct. cbv zeta. now rewrite Hacct.
Qed.

(** X6. A run of the transaction, delegation, origination or reveal
    wrapper that resolves made six calls: head, account, head again, forge,
    apply, inject. The account is looked up at the first head; the branch
    of the forged and applied group is the hash of the second head, the one
    [sendOperation] fetched itself. *)
Theorem wrappers_resolved_run :
  forall (network : string) (keyStore : KeyStore) (w w' : TezosNode.World R)
         (result : OperationResult),
    (forall to amount fee,
        TezosOperations.sendTransactionOperation node network keyStore to amount fee w
        = (Normal result, w') ->
        fetchedThenSubmitted node network keyStore "transaction" w w')
    /\ (forall delegate fee,
        TezosOperations.sendDelegationOperation node network keyStore delegate fee w
        = (Normal result, w') ->
        fetchedThenSubmitted node network keyStore "delegation" w w')
    /\ (forall amount delegate spendable delegatable fee,
        TezosOperations.sendOriginationOperation node network keyStore
          amount delegate spendable delegatable fee w
        = (Normal result, w') ->
        fetchedThenSubmitted node network keyStore "origination" w w')
    /\ (forall fee,
        TezosOperations.sendKeyRevealOperation node network keyStore fee w
        = (Normal result, w') ->
        fetchedThenSubmitted node network keyStore "reveal" w w').
Proof.
  intros network keyStore [r0 log] w' result.
  assert (Hgen : forall (kindName : string)
                        (content : TezosTypes.Account -> list (string * JsVal)),
             (forall acct, lookupProp "kind" (content acct) = JStr kindName) ->
             (forall acct, lookupProp "counter" (content acct)
                           = JStr (Number_toString
                                     (Number_add (TezosTypes.counter acct) 1))) ->
             bindA (TezosNode.getBlockHead node network)
               (fun bh => bindA (TezosNode.getAccountForBlock node network
                                   (TezosTypes.hash bh) (publicKeyHash keyStore))
                            (fun acct =>
                               TezosOperations.sendOperation node network
                                 [JObj (content acct)] keyStore))
               {| TezosNode.remote := r0; TezosNode.calls := log |}
             = (Normal result, w') ->
             fetchedThenSubmitted node network keyStore kindName
               {| TezosNode.remote := r0; TezosNode.calls := log |} w').
  { intros kindName content Hkind Hcounter. rewrite fetch_then.
    destruct (TezosNode.onGetBlockHead node network r0) as [[bh1|] r1] eqn:Hhead1;
      [|discriminate].
    cbv zeta.
    destruct (TezosNode.onGetAccountForBlock node network (TezosTypes.hash bh1)
                (publicKeyHash keyStore) r1) as [[acct|] r2] eqn:Hacct;
      [|discriminate].
    intros Hrun. apply sendOperation_resolved_inv in Hrun
      as (bh2 & r3 & forged & r4 & sg & appliedOp & r5 & injected & r6 & firstOp
          & Hhead2 & _ & Hsign & _ & _ & _ & _ & _ & _ & Hcalls).
    cbn [TezosNode.remote TezosNode.calls] in Hhead2, Hcalls.
    exists bh1, r1, acct, r2, bh2, r3, forged, sg, (content acct).
    cbn [TezosNode.remote TezosNode.calls].
    rewrite Hcalls, <- app_assoc. cbn [app].
    repeat split; auto.
    - rewrite Hcounter, Number_add_safe by assumption.
      now rewrite Number_toString_safe.
    - apply decimal_value_digits. }
  repeat split.
  - intros to amount fee.
    apply (Hgen "transaction"
             (fun acct =>
                [("destination", JStr to);
                 ("amount", JStr (Number_toString amount));
                 ("storage_limit", JStr "0");
                 ("gas_limit", JStr "120");
                 ("counter", JStr (Number_toString
                                     (Number_add
                                        (TezosOperations.Number (TezosTypes.counter acct)) 1)));
                 ("fee", JStr (Number_toString fee));
                 ("source", JStr (publicKeyHash keyStore));
                 ("kind", JStr "transaction");
                 ("parameters", JObj [("prim", JStr "Unit"); ("args", JArr [])])]));
      reflexivity.
  - intros delegate fee.
    apply (Hgen "delegation"
             (fun acct =>
                [("kind", JStr "delegation");
                 ("source", JStr (publicKeyHash keyStore));
                 ("fee", JStr (Number_toString fee));
                 ("counter", JStr (Number_toString
                                     (Number_add
                                        (TezosOperations.Number (TezosTypes.counter acct)) 1)));
                 ("storage_limit", JStr "0");
                 ("gas_limit", JStr "120");
                 ("delegate", JStr delegate)]));
      reflexivity.
  - intros amount delegate spendable delegatable fee.
    apply (Hgen "origination"
             (fun acct =>
                [("kind", JStr "origination");
                 ("source", JStr (publicKeyHash keyStore));
                 ("fee", JStr (Number_toString fee));
                 ("counter", JStr (Number_toString
                                     (Number_add
                                        (TezosOperations.Number (TezosTypes.counter acct)) 1)));
                 ("gas_limit", JStr "120");
                 ("storage_limit", JStr "0");
                 ("managerPubkey", JStr (publicKeyHash keyStore));
                 ("balance", JStr (Number_toString amount));
                 ("spendable", JBool spendable);
                 ("delegatable", JBool delegatable);
                 ("delegate", JStr delegate)]));
      reflexivity.
  - intros fee.
    apply (Hgen "reveal"
             (fun acct =>
                [("kind", JStr "reveal");
                 ("source", JStr (publicKeyHash keyStore));
                 ("fee", JStr (Number_toString fee));
                 ("counter", JStr (Number_toString
                                     (Number_add
                                        (TezosOperations.Number (TezosTypes.counter acct)) 1)));
                 ("gas_limit", JStr "120");
                 ("storage_limit", JStr "0");
                 ("public_key", JStr (publicKey keyStore))]));
      reflexivity.
Qed.

End Wrappers.

(** ** Wire shapes of the other contents *)

Section WireShapes.
Context {CU : CryptoUtils} {NaCl : Sodium}.
Context {R : Type} (node : TezosNode.Remote R).

(** X7. With the head and the account fetched, the delegation wrapper
    submits exactly one content with the seven fields kind "delegation",
    source, fee, counter, storage limit "0", gas limit "120" and delegate;
    fee and counter are decimal strings, the counter that of the remote
    counter plus one. *)
Theorem sendDelegationOperation_content :
  forall (network : string) (keyStore : KeyStore) (delegate : string) (fee c : Z)
         (r0 r1 r2 : R) (log : list TezosNode.Call)
         (blockHead : TezosTypes.BlockMetadata) (account : TezosTypes.Account),
    isSafeInteger fee -> isSafeInteger (c + 1) ->
    TezosNode.onGetBlockHead node network r0 = (Normal blockHead, r1) ->
    TezosNode.onGetAccountForBlock node network
      (TezosTypes.hash blockHead) (publicKeyHash keyStore) r1 = (Normal account, r2) ->
    TezosTypes.counter account = c ->
    TezosOperations.sendDelegationOperation node network keyStore delegate fee
      {| TezosNode.remote := r0; TezosNode.calls := log |}
    = TezosOperations.sendOperation node network
        [JObj [("kind", JStr "delegation");
               ("source", JStr (publicKeyHash keyStore));
               ("fee", JStr (Number_toString fee));
               ("counter", JStr (Number_toString (c + 1)));
               ("storage_limit", JStr "0");
               ("gas_limit", JStr "120");
               ("delegate", JStr delegate)]]
        keyStore
        {| TezosNode.remote := r2;
           TezosNode.calls :=
             (log ++ [TezosNode.GetBlockHead network;
                      TezosNode.GetAccountForBlock network
                        (TezosTypes.hash blockHead) (publicKeyHash keyStore)])%list |}
    /\ decimal_value (Number_toString fee) = Some fee
    /\ decimal_value (Number_toString (c + 1)) = Some (c + 1).
Proof.
  intros network keyStore delegate fee c r0 r1 r2 log blockHead account
         Hfee Hcounter Hhead Hacct Hc.
  rewrite !decimal_value_toString by assumption. repeat split.
  unfold TezosOperations.sendDelegationOperation.
  erewrite bindA_Normal by (unfold TezosNode.getBlockHead; apply rpc_answer, Hhead).
  erewrite bindA_Normal
    by (unfold TezosNode.getAccountForBlock; apply rpc_answer, Hacct).
  cbv zeta. unfold TezosOperations.Number.
  rewrite Hc, (Number_add_safe _ _ Hcounter), <- app_assoc. reflexivity.
Qed.

(** X8. With the head and the account fetched, the origination wrapper
    submits exactly one content with eleven fields: kind "origination";
    source and managerPubkey both the key store's public key hash; fee,
    counter (remote counter plus one) and balance (the amount) as decimal
    strings; gas limit "120", storage limit "0"; spendable and delegatable
    as booleans; the delegate as given. *)
Theorem sendOriginationOperation_content :
  forall (network : string) (keyStore : KeyStore) (amount : Z) (delegate : string)
         (spendable delegatable : bool) (fee c : Z)
         (r0 r1 r2 : R) (log : list TezosNode.Call)
         (blockHead : TezosTypes.BlockMetadata) (account : TezosTypes.Account),
    isSafeInteger amount -> isSafeInteger fee -> isSafeInteger (c + 1) ->
    TezosNode.onGetBlockHead node network r0 = (Normal blockHead, r1) ->
    TezosNode.onGetAccountForBlock node network
      (TezosTypes.hash blockHead) (publicKeyHash keyStore) r1 = (Normal account, r2) ->
    TezosTypes.counter account = c ->
    TezosOperations.sendOriginationOperation node network keyStore
      amount delegate spendable delegatable fee
      {| TezosNode.remote := r0; TezosNode.calls := log |}
    = TezosOperations.sendOperation node network
        [JObj [("kind", JStr "origination");
               ("source", JStr (publicKeyHash keyStore));
               ("fee", JStr (Number_toString fee));
               ("counter", JStr (Number_toString (c + 1)));
               ("gas_limit", JStr "120");
               ("storage_limit", JStr "0");
               ("managerPubkey", JStr (publicKeyHash keyStore));
               ("balance", JStr (Number_toString amount));
               ("spendable", JBool spendable);
               ("delegatable", JBool delegatable);
               ("delegate", JStr delegate)]]
        keyStore
        {| TezosNode.remote := r2;
           TezosNode.calls :=
             (log ++ [TezosNode.GetBlockHead network;
                      TezosNode.GetAccountForBlock network
                        (TezosTypes.hash blockHead) (publicKeyHash keyStore)])%list |}
    /\ decimal_value (Number_toString amount) = Some amount
    /\ decimal_value (Number_toString fee) = Some fee
    /\ decimal_value (Number_toString (c + 1)) = Some (c + 1).
Proof.
  intros network keyStore amount delegate spendable delegatable fee c
         r0 r1 r2 log blockHead account Hamount Hfee Hcounter Hhead Hacct Hc.
  rewrite !decimal_value_toString by assumption. repeat split.
  unfold TezosOperations.sendOriginationOperation.
  erewrite bindA_Normal by (unfold TezosNode.getBlockHead; apply rpc_answer, Hhead).
  erewrite bindA_Normal
    by (unfold TezosNode.getAccountForBlock; apply rpc_answer, Hacct).
  cbv zeta. unfold TezosOperations.Number.
  rewrite Hc, (Number_add_safe _ _ Hcounter), <- app_assoc. reflexivity.
Qed.

(** X9. With the head and the account fetched, the reveal wrapper submits
    exactly one content with the seven fields kind "reveal", source (the
    public key hash), fee, counter (remote counter plus one), gas limit
    "120", storage limit "0" and public_key (the key store's public key,
    never its private key). *)
Theorem sendKeyRevealOperation_content :
  forall (network : string) (keyStore : KeyStore) (fee c : Z)
         (r0 r1 r2 : R) (log : list TezosNode.Call)
         (blockHead : TezosTypes.BlockMetadata) (account : TezosTypes.Account),
    isSafeInteger fee -> isSafeInteger (c + 1) ->
    TezosNode.onGetBlockHead node network r0 = (Normal blockHead, r1) ->
    TezosNode.onGetAccountForBlock node network
      (TezosTypes.hash blockHead) (publicKeyHash keyStore) r1 = (Normal account, r2) ->
    TezosTypes.counter account = c ->
    TezosOperations.sendKeyRevealOperation node network keyStore fee
      {| TezosNode.remote := r0; TezosNode.calls := log |}
    = TezosOperations.sendOperation node network
        [JObj [("kind", JStr "reveal");
               ("source", JStr (publicKeyHash keyStore));
               ("fee", JStr (Number_toString fee));
               ("counter", JStr (Number_toString (c + 1)));
               ("gas_limit", JStr "120");
               ("storage_limit", JStr "0");
               ("public_key", JStr (publicKey keyStore))]]
        keyStore
        {| TezosNode.remote := r2;
           TezosNode.calls :=
             (log ++ [TezosNode.GetBlockHead network;
                      TezosNode.GetAccountForBlock network
                        (TezosTypes.hash blockHead) (publicKeyHash keyStore)])%list |}
    /\ decimal_value (Number_toString fee) = Some fee
    /\ decimal_value (Number_toString (c + 1)) = Some (c + 1).
Proof.
  intros network keyStore fee c r0 r1 r2 log blockHead account
         Hfee Hcounter Hhead Hacct Hc.
  rewrite !decimal_value_toString by assumption. repeat split.
  unfold TezosOperations.sendKeyRevealOperation.
  erewrite bindA_Normal by (unfold TezosNode.getBlockHead; apply rpc_answer, Hhead).
  erewrite bindA_Normal
    by (unfold TezosNode.getAccountForBlock; apply rpc_answer, Hacct).
  cbv zeta. unfold TezosOperations.Number.
  rewrite Hc, (Number_add_safe _ _ Hcounter), <- app_assoc. reflexivity.
Qed.

End WireShapes.

(** ** The validator on any value *)

Lemma checkContents_outcomes (ops : list JsVal) :
  checkContents ops = Normal tt
  \/ checkContents ops = Throw TypeError
  \/ exists id, checkContents ops = Throw (couldNotApply id).
Proof.
  induction ops as [|op ops IH]; [now left|].
  cbn [checkContents].
  destruct (getProp op "kind") as [kind|e] eqn:Hkind.
  - cbn [bindC]. destruct (negb (Set_has validAppliedKinds kind)); [|exact IH].
    destruct op; cbn in Hkind |- *; try discriminate Hkind; eauto.
  - destruct op; cbn in Hkind; try discriminate Hkind;
      injection Hkind as <-; right; left; reflexivity.
Qed.

(** X10. Whatever value the node answers to the dry run, the validator
    returns normally, throws a [TypeError] (an unguarded read or iteration
    failed), or throws its own error "Could not apply operation because:
    ..." built from some [id]; it throws nothing else. *)
Theorem checkAppliedOperationResults_outcomes :
  forall appliedOp : JsVal,
    checkAppliedOperationResults appliedOp = Normal tt
    \/ checkAppliedOperationResults appliedOp = Throw TypeError
    \/ exists id, checkAppliedOperationResults appliedOp = Throw (couldNotApply id).
Proof.
  intros appliedOp. unfold checkAppliedOperationResults.
  destruct (getIndex0 appliedOp) as [firstOp|e] eqn:Hfirst.
  2: { destruct appliedOp as [| | | |s| |]; cbn in Hfirst;
         try discriminate Hfirst; try (injection Hfirst as <-; now (right; left)).
       destruct s; discriminate Hfirst. }
  cbn [bindC].
  destruct firstOp as [| | b | n | s | items | props]; cbn [getProp bindC];
    try (right; left; reflexivity).
  destruct (notNull (lookupProp "kind" props)
            && negb (Set_has validAppliedKinds (lookupProp "kind" props)));
    [right; right; eauto|].
  destruct (iterate (lookupProp "contents" props)) as [ops|e] eqn:Hit.
  - cbn [bindC]. apply checkContents_outcomes.
  - destruct (lookupProp "contents" props); cbn in Hit; try discriminate Hit;
      injection Hit as <-; right; left; reflexivity.
Qed.

(** X11. The validator accepts an answer whose first element is an object
    exactly when the envelope's kind is null, undefined or allowed, its
    contents can be iterated, and the kind of every entry can be read and
    is allowed. The elements after the first play no part. *)
Theorem checkAppliedOperationResults_accepts_iff :
  forall (props : list (string * JsVal)) (rest : list JsVal),
    checkAppliedOperationResults (JArr (JObj props :: rest)) = Normal tt
    <-> (topLevelViolation props = false
         /\ exists ops, iterate (lookupProp "contents" props) = Normal ops
                        /\ Forall passes ops).
Proof.
  intros props rest. rewrite check_envelope.
  destruct (topLevelViolation props).
  - split; [discriminate | intros [? _]; discriminate].
  - destruct (iterate (lookupProp "contents" props)) as [ops|e]; cbn [bindC].
    + rewrite checkContents_accepts. split.
      * intros H. split; [reflexivity | eauto].
      * intros (_ & ops' & [= <-] & H). exact H.
    + split; [discriminate | intros (_ & ops' & Hops & _); discriminate].
Qed.

(** ** Signing, on every input *)

(** X12. [signOperationGroup] fails in the order of its statements. On a
    forged text that holds a character that is no hexadecimal digit, or
    that has an odd number of characters, it throws a [TypeError] whatever
    the key store. On a text of an even number of hexadecimal digits, the
    empty text among them, with a private key that does not decode under
    [edsk], it throws the decoding exception whatever the signing primitive
    would do. With the key decoded it throws what the signing primitive
    throws on the hash of the watermarked bytes. On the empty text, with
    the key decoded and the signing done, it throws a [TypeError], because
    the bare text is decoded last and the decoder refuses the empty
    text. *)
Theorem signOperationGroup_failure_order :
  forall {CU : CryptoUtils} {NaCl : Sodium} (forgedOperation : string)
         (keyStore : KeyStore) (e : Exn),
    let wellFormed :=
      allHexDigits forgedOperation && Nat.even (String.length forgedOperation) in
    (wellFormed = false ->
     TezosOperations.signOperationGroup forgedOperation keyStore = Throw TypeError)
    /\ (wellFormed = true ->
        base58CheckDecode (privateKey keyStore) "edsk" = Throw e ->
        TezosOperations.signOperationGroup forgedOperation keyStore = Throw e)
    /\ (forall privateKeyBytes,
           wellFormed = true ->
           base58CheckDecode (privateKey keyStore) "edsk" = Normal privateKeyBytes ->
           crypto_sign_detached
             (crypto_generichash 32 (x03 :: hexBytes forgedOperation))
             privateKeyBytes = Throw e ->
           TezosOperations.signOperationGroup forgedOperation keyStore = Throw e)
    /\ (forall privateKeyBytes opSignature,
           forgedOperation = "" ->
           base58CheckDecode (privateKey keyStore) "edsk" = Normal privateKeyBytes ->
           crypto_sign_detached (crypto_generichash 32 [x03]) privateKeyBytes
           = Normal opSignature ->
           TezosOperations.signOperationGroup forgedOperation keyStore
           = Throw TypeError).
Proof.
  intros CU NaCl forgedOperation keyStore e wellFormed. subst wellFormed.
  unfold TezosOperations.signOperationGroup. cbv zeta.
  rewrite from_hex_watermark. repeat split.
  - now intros ->.
  - intros -> Hkey. cbn [bindC]. now rewrite Hkey.
  - intros key -> Hkey Hsig. cbn [bindC]. rewrite Hkey. cbn [bindC].
    now rewrite Hsig.
  - intros key sig -> Hkey Hsig. cbn [allHexDigits String.length Nat.even andb bindC hexBytes].
    rewrite Hkey. cbn [bindC]. rewrite Hsig. reflexivity.
Qed.

Lemma lower_hex_digit (c : ascii) (h : N) :
  hexValue c = Some h -> isLowerHexDigit c = true -> (h < 16)%N /\ hexDigit h = c.
Proof.
  destruct c as [[] [] [] [] [] [] [] []]; vm_compute; intros Hv Hl;
    try discriminate Hl; injection Hv as <-; split; reflexivity.
Qed.

Lemma nibbles_of_byte (hi lo : N) :
  (hi < 16)%N -> (lo < 16)%N ->
  (Byte.to_N (byte_of_nibbles hi lo) / 16 = hi
   /\ Byte.to_N (byte_of_nibbles hi lo) mod 16 = lo)%N.
Proof.
  intros Hhi Hlo.
  assert (Ehi : In hi [0; 1; 2; 3; 4; 5; 6; 7; 8; 9; 10; 11; 12; 13; 14; 15]%N)
    by (cbn [In]; lia).
  assert (Elo : In lo [0; 1; 2; 3; 4; 5; 6; 7; 8; 9; 10; 11; 12; 13; 14; 15]%N)
    by (cbn [In]; lia).
  cbn [In] in Ehi, Elo.
  repeat (destruct Ehi as [<-|Ehi]); try contradiction;
    repeat (destruct Elo as [<-|Elo]); try contradiction;
    vm_compute; split; reflexivity.
Qed.

Lemma to_hex_hexBytes_lower (s : string) :
  (allHexDigits s = true -> Nat.even (String.length s) = true ->
   isLowerHex s = true -> to_hex (hexBytes s) = s)
  /\ (forall c, allHexDigits (String c s) = true ->
                Nat.even (String.length (String c s)) = true ->
                isLowerHex (String c s) = true ->
                to_hex (hexBytes (String c s)) = String c s).
Proof.
  induction s as [|d s [IH0 IH1]].
  - split; [reflexivity|]. intros c _ Hev. discriminate Hev.
  - split; [exact (IH1 d)|].
    intros c Hall Hev Hl. cbn [allHexDigits] in Hall.
    destruct (hexValue c) as [hi|] eqn:Hc; [|discriminate].
    destruct (hexValue d) as [lo|] eqn:Hd; [|discriminate].
    change (Nat.even (String.length s) = true) in Hev.
    cbn [isLowerHex] in Hl.
    apply andb_prop in Hl as [Hlc Hl]. apply andb_prop in Hl as [Hld Hls].
    destruct (lower_hex_digit _ _ Hc Hlc) as [Bhi Ehi].
    destruct (lower_hex_digit _ _ Hd Hld) as [Blo Elo].
    destruct (nibbles_of_byte _ _ Bhi Blo) as [Ediv Emod].
    cbn [hexBytes to_hex]. cbv zeta. unfold nibble. rewrite Hc, Hd.
    rewrite Ediv, Emod, Ehi, Elo.
    now rewrite (IH0 Hall Hev Hls).
Qed.

Lemma to_hex_from_hex_lower (s : string) (b : Buffer) :
  from_hex s = Normal b -> isLowerHex s = true -> to_hex b = s.
Proof.
  intros H Hl. apply from_hex_Normal in H as (_ & Hhex & ->).
  apply andb_prop in Hhex as [Hall Hev].
  exact (proj1 (to_hex_hexBytes_lower s) Hall Hev Hl).
Qed.

(** X13. When the forged text is written with lower-case digits, the hex
    text of the signed bytes, which is what [injectOperation] sends, is the
    forged text itself followed by the hex text of the signature whose
    [edsig] encoding is the [signature] field. *)
Theorem signed_bytes_hex_extends_forged :
  forall {CU : CryptoUtils} {NaCl : Sodium} (forgedOperation : string)
         (keyStore : KeyStore) (signedOpGroup : SignedOperationGroup),
    TezosOperations.signOperationGroup forgedOperation keyStore = Normal signedOpGroup ->
    isLowerHex forgedOperation = true ->
    exists opSignature,
      signature signedOpGroup = base58CheckEncode opSignature "edsig"
      /\ to_hex (bytes signedOpGroup) = forgedOperation +:+ to_hex opSignature.
Proof.
  intros CU NaCl forgedOperation keyStore sg Hsign Hlower.
  destruct (signOperationGroup_inv _ _ _ Hsign) as (fb & key & sig & Hhex & _ & _ & ->).
  exists sig. cbn [bytes signature]. split; [reflexivity|].
  rewrite to_hex_app.
  now rewrite (to_hex_from_hex_lower forgedOperation fb Hhex Hlower).
Qed.

(** ** The manager key query *)

Lemma notNull_false (v : JsVal) : notNull v = false <-> v = JNull \/ v = JUndefined.
Proof.
  destruct v; cbn; split; intros H; try discriminate H; auto;
    destruct H as [H|H]; discriminate H.
Qed.

(** X14. [isManagerKeyRevealedForAccount] asks for the block head and then
    for the manager key of the key store's public key hash at that head,
    and makes no other call. It answers false exactly when the reported
    key is null or absent. When the head fetch is refused the manager key
    is not asked for. *)
Theorem isManagerKeyRevealedForAccount_spec :
  forall {R : Type} (remoteNode : ManagerKeys.Remote R) (network : string)
         (keyStore : KeyStore) (r0 : R) (log : list ManagerKeys.Call),
    let run := ManagerKeys.isManagerKeyRevealedForAccount remoteNode network keyStore
                 {| ManagerKeys.remote := r0; ManagerKeys.calls := log |} in
    let head := ManagerKeys.Node (TezosNode.GetBlockHead network) in
    (forall blockHead r1 managerKey r2,
        TezosNode.onGetBlockHead (ManagerKeys.node remoteNode) network r0
        = (Normal blockHead, r1) ->
        ManagerKeys.onGetAccountManagerForBlock remoteNode network
          (TezosTypes.hash blockHead) (publicKeyHash keyStore) r1
        = (Normal managerKey, r2) ->
        exists revealed,
          run = (Normal revealed,
                 {| ManagerKeys.remote := r2;
                    ManagerKeys.calls :=
                      (log ++ [head;
                               ManagerKeys.GetAccountManagerForBlock network
                                 (TezosTypes.hash blockHead)
                                 (publicKeyHash keyStore)])%list |})
          /\ (revealed = false
              <-> ManagerKeys.key managerKey = JNull
                  \/ ManagerKeys.key managerKey = JUndefined))
    /\ (forall e r1,
        TezosNode.onGetBlockHead (ManagerKeys.node remoteNode) network r0
        = (Throw e, r1) ->
        run = (Throw e, {| ManagerKeys.remote := r1;
                           ManagerKeys.calls := (log ++ [head])%list |})).
Proof.
  intros R remoteNode network keyStore r0 log run head. subst run head.
  unfold ManagerKeys.isManagerKeyRevealedForAccount, ManagerKeys.getBlockHead,
    ManagerKeys.getAccountManagerForBlock, ManagerKeys.rpc, bindA, resolve.
  cbn [ManagerKeys.remote ManagerKeys.calls]. split.
  - intros blockHead r1 managerKey r2 -> Hkey.
    cbn [ManagerKeys.remote ManagerKeys.calls]. rewrite Hkey.
    exists (notNull (ManagerKeys.key managerKey)).
    rewrite <- app_assoc. split; [reflexivity | apply notNull_false].
  - intros e r1 ->. reflexivity.
Qed.

(** ** The wallet codec, in every run *)

Section WalletRuns.
Context {CU : CryptoUtils} {J : JSON}.

Lemma loadWallet_host (filename passphrase : string) (h : Host) :
  snd (TezosWallet.loadWallet filename passphrase h) = h.
Proof.
  unfold TezosWallet.loadWallet, fsPromises.readFile, bindA, sync, resolve.
  destruct (files h !! filename) as [data|]; [|reflexivity].
  destruct (parse_wallet data) as [encryptedWallet|]; [|reflexivity].
  destruct (base58CheckDecode (ciphertext encryptedWallet) "")
    as [encryptedKeys|]; [|reflexivity].
  destruct (base58CheckDecode (salt encryptedWallet) "") as [fresh|]; [|reflexivity].
  destruct (decryptMessage encryptedKeys passphrase fresh) as [plaintext|];
    [|reflexivity].
  destruct (parse_identities plaintext); reflexivity.
Qed.

Lemma loadWallet_files (filename passphrase : string) (h1 h2 : Host) :
  files h1 !! filename = files h2 !! filename ->
  fst (TezosWallet.loadWallet filename passphrase h1)
  = fst (TezosWallet.loadWallet filename passphrase h2).
Proof.
  intros Hfiles.
  unfold TezosWallet.loadWallet, fsPromises.readFile, bindA, sync, resolve.
  rewrite Hfiles.
  destruct (files h2 !! filename) as [data|]; [|reflexivity].
  destruct (parse_wallet data) as [encryptedWallet|]; [|reflexivity].
  destruct (base58CheckDecode (ciphertext encryptedWallet) "")
    as [encryptedKeys|]; [|reflexivity].
  destruct (base58CheckDecode (salt encryptedWallet) "") as [fresh|]; [|reflexivity].
  destruct (decryptMessage encryptedKeys passphrase fresh) as [plaintext|];
    [|reflexivity].
  destruct (parse_identities plaintext); reflexivity.
Qed.

(** X15. [loadWallet] only reads: however it completes, the files, the
    paths that refuse writes and the random source are as before, so that
    loading again gives the same outcome. *)
Theorem loadWallet_reads_only :
  forall (filename passphrase : string) (h : Host),
    snd (TezosWallet.loadWallet filename passphrase h) = h
    /\ TezosWallet.loadWallet filename passphrase
         (snd (TezosWallet.loadWallet filename passphrase h))
       = TezosWallet.loadWallet filename passphrase h.
Proof.
  intros filename passphrase h. split; [apply loadWallet_host|].
  now rewrite loadWallet_host.
Qed.

(** X16. On a file whose text parses to a wallet record, [loadWallet]
    stops at the first step that fails and that failure is its outcome: a
    ciphertext that does not decode, then a salt that does not decode,
    then the decryption. The later steps are not consulted, and the host
    is left as it was. A missing file is the outcome before any of them. *)
Theorem loadWallet_first_failure :
  forall (filename passphrase : string) (h : Host) (e : Exn),
    (files h !! filename = None ->
     TezosWallet.loadWallet filename passphrase h = (Throw (External "ENOENT"), h))
    /\ (forall data encryptedWallet,
           files h !! filename = Some data ->
           parse_wallet data = Normal encryptedWallet ->
           base58CheckDecode (ciphertext encryptedWallet) "" = Throw e ->
           TezosWallet.loadWallet filename passphrase h = (Throw e, h))
    /\ (forall data encryptedWallet encryptedKeys,
           files h !! filename = Some data ->
           parse_wallet data = Normal encryptedWallet ->
           base58CheckDecode (ciphertext encryptedWallet) "" = Normal encryptedKeys ->
           base58CheckDecode (salt encryptedWallet) "" = Throw e ->
           TezosWallet.loadWallet filename passphrase h = (Throw e, h))
    /\ (forall data encryptedWallet encryptedKeys fresh,
           files h !! filename = Some data ->
           parse_wallet data = Normal encryptedWallet ->
           base58CheckDecode (ciphertext encryptedWallet) "" = Normal encryptedKeys ->
           base58CheckDecode (salt encryptedWallet) "" = Normal fresh ->
           decryptMessage encryptedKeys passphrase fresh = Throw e ->
           TezosWallet.loadWallet filename passphrase h = (Throw e, h)).
Proof.
  intros filename passphrase h e.
  unfold TezosWallet.loadWallet, fsPromises.readFile, bindA, sync, resolve.
  repeat split.
  - now intros ->.
  - intros data ew -> Hp Hc. now rewrite Hp, Hc.
  - intros data ew ek -> Hp Hc Hs. now rewrite Hp, Hc, Hs.
  - intros data ew ek fresh -> Hp Hc Hs Hd. now rewrite Hp, Hc, Hs, Hd.
Qed.

(** X17. However [saveWallet] completes, it touches no file but the one
    it was given, leaves the set of paths that refuse writes as it was,
    and has drawn exactly one salt from the random source. *)
Theorem saveWallet_frame :
  forall (filename passphrase : string) (wallet : Wallet) (h : Host),
    let after := snd (TezosWallet.saveWallet filename wallet passphrase h) in
    locked after = locked h
    /\ entropy after = snd (generateSaltForPwHash (entropy h))
    /\ (forall other, other <> filename -> files after !! other = files h !! other).
Proof.
  intros filename passphrase wallet h after. subst after.
  unfold TezosWallet.saveWallet, TezosWallet.drawSalt, fsPromises.writeFile, bindA.
  cbv zeta. destruct (generateSaltForPwHash (entropy h)) as [fresh e'].
  cbn [files locked entropy fst snd].
  destruct (decide (filename ∈ locked h)).
  - cbn [snd files locked entropy]. auto.
  - rewrite loadWallet_host. cbn [files locked entropy].
    repeat split. intros other Hother. now apply lookup_insert_ne.
Qed.

(** X18. A refused write makes [saveWallet] fail with the file system's
    exception without loading anything; the files are as before, so a
    wallet stored earlier under that name still loads as it did. *)
Theorem saveWallet_write_refused :
  forall (filename passphrase : string) (wallet : Wallet) (h : Host),
    filename ∈ locked h ->
    let run := TezosWallet.saveWallet filename wallet passphrase h in
    fst run = Throw (External "EACCES")
    /\ files (snd run) = files h
    /\ (forall q, fst (TezosWallet.loadWallet filename q (snd run))
                  = fst (TezosWallet.loadWallet filename q h)).
Proof.
  intros filename passphrase wallet h Hlocked run.
  assert (E : run = (Throw (External "EACCES"),
                     {| files := files h; locked := locked h;
                        entropy := snd (generateSaltForPwHash (entropy h)) |})).
  { subst run.
    unfold TezosWallet.saveWallet, TezosWallet.drawSalt, fsPromises.writeFile, bindA.
    cbv zeta. destruct (generateSaltForPwHash (entropy h)) as [fresh e'].
    cbn [files locked entropy fst snd].
    destruct (decide (filename ∈ locked h)); [reflexivity | contradiction]. }
  rewrite E. cbn [fst snd files]. repeat split.
  intros q. now apply loadWallet_files.
Qed.

Context (CL : CryptoUtilsLaws CU) (JL : JSONLaws J).

(** X19. Saving twice under one name keeps the later wallet only: the
    file then loads, under the second passphrase, as the second wallet; if
    the two passphrases differ, the first one no longer opens it. *)
Theorem saveWallet_latest_wins :
  forall (filename p1 p2 : string) (wallet1 wallet2 : Wallet) (h : Host),
    filename ∉ locked h ->
    let h1 := snd (TezosWallet.saveWallet filename wallet1 p1 h) in
    let h2 := snd (TezosWallet.saveWallet filename wallet2 p2 h1) in
    TezosWallet.loadWallet filename p2 h2
    = (Normal {| identities := identities wallet2 |}, h2)
    /\ (p1 <> p2 ->
        TezosWallet.loadWallet filename p1 h2 = (Throw DecryptionFailure, h2)).
Proof.
  intros filename p1 p2 wallet1 wallet2 h Hfree h1 h2.
  assert (Hfree1 : filename ∉ locked h1)
    by (subst h1; now rewrite (saveWallet_resolves CL JL _ _ _ _ Hfree)).
  assert (Hstored : files h2 !! filename
                    = Some (stringify_wallet
                              (walletRecord wallet2 p2
                                 (fst (generateSaltForPwHash (entropy h1)))))).
  { subst h2. rewrite (saveWallet_resolves CL JL _ _ _ _ Hfree1).
    cbn [snd files]. apply lookup_insert_eq. }
  split.
  - exact (loadWallet_right_passphrase CL JL _ _ _ _ _ Hstored).
  - intros Hne. rewrite (loadWallet_of_record CL JL _ _ _ _ _ _ Hstored).
    now rewrite (decrypt_wrong_passphrase _ _ _ _ Hne).
Qed.

(** X20. [createWallet] does not look at what the file holds: on the file
    of a saved wallet it succeeds, and afterwards the file loads as the
    empty identity list. *)
Theorem createWallet_overwrites :
  forall (filename p q : string) (wallet : Wallet) (h : Host),
    filename ∉ locked h ->
    let h1 := snd (TezosWallet.saveWallet filename wallet p h) in
    let created := TezosWallet.createWallet filename q h1 in
    fst created = Normal {| identities := [] |}
    /\ TezosWallet.loadWallet filename q (snd created)
       = (Normal {| identities := [] |}, snd created).
Proof.
  intros filename p q wallet h Hfree h1 created.
  assert (Hfree1 : filename ∉ locked h1)
    by (subst h1; now rewrite (saveWallet_resolves CL JL _ _ _ _ Hfree)).
  subst created. unfold TezosWallet.createWallet. cbv zeta.
  erewrite bindA_Normal by (apply (saveWallet_resolves CL JL), Hfree1).
  unfold resolve. cbn [fst snd]. split; [reflexivity|].
  eapply (loadWallet_right_passphrase CL JL _ _ {| identities := [] |}).
  cbn [files]. apply lookup_insert_eq.
Qed.

(** X21. Wallets saved under different file names do not disturb each
    other: after saving one wallet to [f] and another to [g], each file
    loads, under its own passphrase, as the wallet saved to it. *)
Theorem saveWallet_independent_files :
  forall (f g p q : string) (walletF walletG : Wallet) (h : Host),
    f <> g -> f ∉ locked h -> g ∉ locked h ->
    let h1 := snd (TezosWallet.saveWallet f walletF p h) in
    let h2 := snd (TezosWallet.saveWallet g walletG q h1) in
    TezosWallet.loadWallet f p h2 = (Normal {| identities := identities walletF |}, h2)
    /\ TezosWallet.loadWallet g q h2
       = (Normal {| identities := identities walletG |}, h2).
Proof.
  intros f g p q walletF walletG h Hfg Hf Hg h1 h2.
  assert (Hg1 : g ∉ locked h1)
    by (subst h1; now rewrite (saveWallet_resolves CL JL _ _ _ _ Hf)).
  assert (HstoredF : files h2 !! f
                     = Some (stringify_wallet
                               (walletRecord walletF p
                                  (fst (generateSaltForPwHash (entropy h)))))).
  { subst h2. rewrite (saveWallet_resolves CL JL _ _ _ _ Hg1). cbn [snd files].
    rewrite lookup_insert_ne by congruence.
    subst h1. rewrite (saveWallet_resolves CL JL _ _ _ _ Hf). cbn [snd files].
    apply lookup_insert_eq. }
  assert (HstoredG : files h2 !! g
                     = Some (stringify_wallet
                               (walletRecord walletG q
                                  (fst (generateSaltForPwHash (entropy h1)))))).
  { subst h2. rewrite (saveWallet_resolves CL JL _ _ _ _ Hg1). cbn [snd files].
    apply lookup_insert_eq. }
  split.
  - exact (loadWallet_right_passphrase CL JL _ _ _ _ _ HstoredF).
  - exact (loadWallet_right_passphrase CL JL _ _ _ _ _ HstoredG).
Qed.

End WalletRuns.

(** ** Witnesses of the further properties *)

Section FurtherWitnesses.
#[local] Existing Instance Sample.cryptoUtils.
#[local] Existing Instance Sample.sodium.
#[local] Existing Instance Sample.json.

Lemma sendOperation_sign_failure_witness :
  TezosOperations.sendOperation (Sample.node 41 Sample.accepted) "zeronet"
    [JObj [("kind", JStr "reveal")]] Unreliable.strangerKeyStore Sample.world
  = (Throw (External "bad prefix"),
     {| TezosNode.remote := 2%nat;
        TezosNode.calls :=
          [TezosNode.GetBlockHead "zeronet";
           TezosNode.ForgeOperation "zeronet"
             (forgePayload Sample.blockHead [JObj [("kind", JStr "reveal")]])] |}).
Proof.
  exact (@sendOperation_sign_failure
           Sample.cryptoUtils Sample.sodium nat (Sample.node 41 Sample.accepted)
           "zeronet" [JObj [("kind", JStr "reveal")]] Unreliable.strangerKeyStore
           0%nat 1%nat 2%nat [] Sample.blockHead "a1b2c3" (External "bad prefix")
           eq_refl eq_refl eq_refl).
Defined.

Lemma sendOperation_remote_failure_witness :
  TezosOperations.sendOperation (Unreliable.node 0 41 Sample.accepted) "zeronet"
    [JObj [("kind", JStr "reveal")]] Sample.keyStore Sample.world
  = (Throw Unreliable.refused,
     {| TezosNode.remote := 1%nat;
        TezosNode.calls := [TezosNode.GetBlockHead "zeronet"] |})
  /\ fst (TezosOperations.sendOperation (Unreliable.node 2 41 Sample.accepted) "zeronet"
            [JObj [("kind", JStr "reveal")]] Sample.keyStore Sample.world)
     = Throw Unreliable.refused.
Proof.
  split.
  - exact (proj1 (@sendOperation_remote_failure
                    Sample.cryptoUtils Sample.sodium nat
                    (Unreliable.node 0 41 Sample.accepted) "zeronet"
                    [JObj [("kind", JStr "reveal")]] Sample.keyStore 0%nat [])
             Unreliable.refused 1%nat eq_refl).
  - pose proof (proj1 (proj2 (proj2 (@sendOperation_remote_failure
                    Sample.cryptoUtils Sample.sodium nat
                    (Unreliable.node 2 41 Sample.accepted) "zeronet"
                    [JObj [("kind", JStr "reveal")]] Sample.keyStore 0%nat [])))
                  (Unreliable.headAt 0) 1%nat "a1b2c3" 2%nat _
                  Unreliable.refused 3%nat eq_refl eq_refl eq_refl eq_refl) as W.
    exact (f_equal fst W).
Defined.

Lemma sendOperation_resolved_run_witness :
  exists appliedOp,
    appliedOp = Sample.accepted
    /\ getIndex0 appliedOp
       = Normal (JObj [("contents", JArr [JObj [("kind", JStr "transaction")]]);
                       ("signature", JStr "edsigSample")]).
Proof.
  destruct (@sendOperation_resolved_run
              Sample.cryptoUtils Sample.sodium nat (Sample.node 41 Sample.accepted)
              "zeronet" [JObj [("kind", JStr "reveal")]] Sample.keyStore
              Sample.world _ _ eq_refl)
    as (blockHead & forged & sg & appliedOp & r1 & r2 & r3
        & _ & _ & _ & _ & Happly & Hfirst & _).
  exists appliedOp. cbn in Happly. injection Happly as <- _.
  split; [reflexivity | exact Hfirst].
Defined.

Lemma wrappers_stop_at_refused_fetch_witness :
  TezosOperations.sendKeyRevealOperation (Unreliable.node 1 41 Sample.accepted)
    "zeronet" Sample.keyStore 100 Sample.world
  = (Throw Unreliable.refused,
     {| TezosNode.remote := 2%nat;
        TezosNode.calls := [TezosNode.GetBlockHead "zeronet";
                            TezosNode.GetAccountForBlock "zeronet" "BL0" "tz1Sender"] |}).
Proof.
  refine (proj2 (@wrappers_stop_at_refused_fetch
                   Sample.cryptoUtils Sample.sodium nat
                   (Unreliable.node 1 41 Sample.accepted) "zeronet" Sample.keyStore
                   0%nat [] "tz1Receiver" "tz1Baker" 1000 100 true true _ _)
            (Unreliable.headAt 0) 1%nat Unreliable.refused 2%nat eq_refl eq_refl).
  right. right. right. left. reflexivity.
Defined.

Lemma wrappers_resolved_run_witness :
  fetchedThenSubmitted (Unreliable.node 99 41 Sample.accepted) "zeronet"
    Sample.keyStore "reveal" Sample.world
    (snd (TezosOperations.sendKeyRevealOperation (Unreliable.node 99 41 Sample.accepted)
            "zeronet" Sample.keyStore 100 Sample.world)).
Proof.
  refine (proj2 (proj2 (proj2 (@wrappers_resolved_run
                   Sample.cryptoUtils Sample.sodium nat
                   (Unreliable.node 99 41 Sample.accepted) "zeronet" Sample.keyStore
                   Sample.world _
                   {| results := JObj [("contents",
                                        JArr [JObj [("kind", JStr "transaction")]]);
                                       ("signature", JStr "edsigSample")];
                      operationGroupID := "ooSampleGroup" |}))) 100 _).
  vm_compute. reflexivity.
Defined.

(** On the node whose head moves, the account is read at the first head
    and the group is forged on the third state's head. *)
Example moving_head_branches :
  map (fun c => match c with
                | TezosNode.GetAccountForBlock _ blockHash _ => blockHash
                | TezosNode.ForgeOperation _ payload =>
                    ToString (lookupProp "branch"
                                (match payload with JObj props => props | _ => [] end))
                | _ => ""
                end)
      (TezosNode.calls
         (snd (TezosOperations.sendKeyRevealOperation
                 (Unreliable.node 99 41 Sample.accepted)
                 "zeronet" Sample.keyStore 100 Sample.world)))
  = [""; "BL0"; ""; "BL2"; ""; ""].
Proof. vm_compute. reflexivity. Qed.

Lemma sendDelegationOperation_content_witness :
  TezosOperations.sendDelegationOperation (Sample.node 41 Sample.accepted) "zeronet"
    Sample.keyStore "tz1Baker" 100 Sample.world
  = TezosOperations.sendOperation (Sample.node 41 Sample.accepted) "zeronet"
      [JObj [("kind", JStr "delegation");
             ("source", JStr "tz1Sender");
             ("fee", JStr "100");
             ("counter", JStr "42");
             ("storage_limit", JStr "0");
             ("gas_limit", JStr "120");
             ("delegate", JStr "tz1Baker")]]
      Sample.keyStore
      {| TezosNode.remote := 2%nat;
         TezosNode.calls := [TezosNode.GetBlockHead "zeronet";
                             TezosNode.GetAccountForBlock "zeronet" "BLhead" "tz1Sender"] |}.
Proof.
  assert (S1 : isSafeInteger 100) by (unfold isSafeInteger; lia).
  assert (S2 : isSafeInteger (41 + 1)) by (unfold isSafeInteger; lia).
  exact (proj1 (@sendDelegationOperation_content
                  Sample.cryptoUtils Sample.sodium nat (Sample.node 41 Sample.accepted)
                  "zeronet" Sample.keyStore "tz1Baker" 100 41
                  0%nat 1%nat 2%nat [] Sample.blockHead (Sample.account 41)
                  S1 S2 eq_refl eq_refl eq_refl)).
Defined.

Lemma sendOriginationOperation_content_witness :
  TezosOperations.sendOriginationOperation (Sample.node 41 Sample.accepted) "zeronet"
    Sample.keyStore 500 "tz1Baker" true false 100 Sample.world
  = TezosOperations.sendOperation (Sample.node 41 Sample.accepted) "zeronet"
      [JObj [("kind", JStr "origination");
             ("source", JStr "tz1Sender");
             ("fee", JStr "100");
             ("counter", JStr "42");
             ("gas_limit", JStr "120");
             ("storage_limit", JStr "0");
             ("managerPubkey", JStr "tz1Sender");
             ("balance", JStr "500");
             ("spendable", JBool true);
             ("delegatable", JBool false);
             ("delegate", JStr "tz1Baker")]]
      Sample.keyStore
      {| TezosNode.remote := 2%nat;
         TezosNode.calls := [TezosNode.GetBlockHead "zeronet";
                             TezosNode.GetAccountForBlock "zeronet" "BLhead" "tz1Sender"] |}.
Proof.
  assert (S0 : isSafeInteger 500) by (unfold isSafeInteger; lia).
  assert (S1 : isSafeInteger 100) by (unfold isSafeInteger; lia).
  assert (S2 : isSafeInteger (41 + 1)) by (unfold isSafeInteger; lia).
  exact (proj1 (@sendOriginationOperation_content
                  Sample.cryptoUtils Sample.sodium nat (Sample.node 41 Sample.accepted)
                  "zeronet" Sample.keyStore 500 "tz1Baker" true false 100 41
                  0%nat 1%nat 2%nat [] Sample.blockHead (Sample.account 41)
                  S0 S1 S2 eq_refl eq_refl eq_refl)).
Defined.

Lemma sendKeyRevealOperation_content_witness :
  TezosOperations.sendKeyRevealOperation (Sample.node 41 Sample.accepted) "zeronet"
    Sample.keyStore 100 Sample.world
  = TezosOperations.sendOperation (Sample.node 41 Sample.accepted) "zeronet"
      [JObj [("kind", JStr "reveal");
             ("source", JStr "tz1Sender");
             ("fee", JStr "100");
             ("counter", JStr "42");
             ("gas_limit", JStr "120");
             ("storage_limit", JStr "0");
             ("public_key", JStr "edpkSample")]]
      Sample.keyStore
      {| TezosNode.remote := 2%nat;
         TezosNode.calls := [TezosNode.GetBlockHead "zeronet";
                             TezosNode.GetAccountForBlock "zeronet" "BLhead" "tz1Sender"] |}.
Proof.
  assert (S1 : isSafeInteger 100) by (unfold isSafeInteger; lia).
  assert (S2 : isSafeInteger (41 + 1)) by (unfold isSafeInteger; lia).
  exact (proj1 (@sendKeyRevealOperation_content
                  Sample.cryptoUtils Sample.sodium nat (Sample.node 41 Sample.accepted)
                  "zeronet" Sample.keyStore 100 41
                  0%nat 1%nat 2%nat [] Sample.blockHead (Sample.account 41)
                  S1 S2 eq_refl eq_refl eq_refl)).
Defined.

Lemma signOperationGroup_failure_order_witness :
  TezosOperations.signOperationGroup "a1b2c" Sample.keyStore = Throw TypeError
  /\ TezosOperations.signOperationGroup "a1zz" Unreliable.strangerKeyStore
     = Throw TypeError
  /\ TezosOperations.signOperationGroup "" Unreliable.strangerKeyStore
     = Throw (External "bad prefix")
  /\ TezosOperations.signOperationGroup "a1b2c3" Unreliable.strangerKeyStore
     = Throw (External "bad prefix")
  /\ TezosOperations.signOperationGroup "" Sample.keyStore = Throw TypeError.
Proof.
  split; [|split; [|split; [|split]]].
  - exact (proj1 (@signOperationGroup_failure_order Sample.cryptoUtils Sample.sodium
                    "a1b2c" Sample.keyStore TypeError) eq_refl).
  - exact (proj1 (@signOperationGroup_failure_order Sample.cryptoUtils Sample.sodium
                    "a1zz" Unreliable.strangerKeyStore TypeError) eq_refl).
  - exact (proj1 (proj2 (@signOperationGroup_failure_order
                    Sample.cryptoUtils Sample.sodium
                    "" Unreliable.strangerKeyStore (External "bad prefix")))
             eq_refl eq_refl).
  - exact (proj1 (proj2 (@signOperationGroup_failure_order
                    Sample.cryptoUtils Sample.sodium
                    "a1b2c3" Unreliable.strangerKeyStore (External "bad prefix")))
             eq_refl eq_refl).
  - exact (proj2 (proj2 (proj2 (@signOperationGroup_failure_order
                    Sample.cryptoUtils Sample.sodium
                    "" Sample.keyStore TypeError)))
             [x01; x02] _ eq_refl eq_refl eq_refl).
Defined.

Lemma signed_bytes_hex_extends_forged_witness :
  exists opSignature,
    "edsig010203a1b2c300000000000000000000000000000000000000000000000000000000"
    = "edsig" +:+ to_hex opSignature
    /\ "a1b2c3010203a1b2c300000000000000000000000000000000000000000000000000000000"
       = "a1b2c3" +:+ to_hex opSignature.
Proof.
  destruct (@signed_bytes_hex_extends_forged Sample.cryptoUtils Sample.sodium
              "a1b2c3" Sample.keyStore _ eq_refl eq_refl) as (sig & Hsig & Hbytes).
  exists sig. split; [exact Hsig | exact Hbytes].
Defined.

Lemma isManagerKeyRevealedForAccount_spec_witness :
  fst (ManagerKeys.isManagerKeyRevealedForAccount (Unreliable.managerNode JNull)
         "zeronet" Sample.keyStore Unreliable.managerWorld)
  = Normal false
  /\ fst (ManagerKeys.isManagerKeyRevealedForAccount
            (Unreliable.managerNode (JStr "edpkSample"))
            "zeronet" Sample.keyStore Unreliable.managerWorld)
     = Normal true.
Proof.
  split.
  - destruct (proj1 (@isManagerKeyRevealedForAccount_spec nat
                       (Unreliable.managerNode JNull) "zeronet" Sample.keyStore
                       0%nat [])
                Sample.blockHead 1%nat _ 2%nat eq_refl eq_refl)
      as (revealed & Hrun & Hiff).
    unfold Unreliable.managerWorld. rewrite Hrun. cbn [fst]. f_equal.
    apply Hiff. left. reflexivity.
  - destruct (proj1 (@isManagerKeyRevealedForAccount_spec nat
                       (Unreliable.managerNode (JStr "edpkSample")) "zeronet"
                       Sample.keyStore 0%nat [])
                Sample.blockHead 1%nat _ 2%nat eq_refl eq_refl)
      as (revealed & Hrun & Hiff).
    unfold Unreliable.managerWorld. rewrite Hrun. cbn [fst]. f_equal.
    destruct revealed; [reflexivity|].
    destruct (proj1 Hiff eq_refl) as [H|H]; discriminate H.
Defined.

Lemma loadWallet_first_failure_witness :
  TezosWallet.loadWallet "wallet.json" "correct horse" Sample.host
  = (Throw (External "ENOENT"), Sample.host)
  /\ TezosWallet.loadWallet "wallet.json" "correct horse"
       (Unreliable.storedHost
          {| version := "1"; salt := "zz"; ciphertext := "a1b"; kdf := "Argon2" |})
     = (Throw TypeError,
        Unreliable.storedHost
          {| version := "1"; salt := "zz"; ciphertext := "a1b"; kdf := "Argon2" |})
  /\ TezosWallet.loadWallet "wallet.json" "correct horse"
       (Unreliable.storedHost
          {| version := "1"; salt := "zz"; ciphertext := "02"; kdf := "Argon2" |})
     = (Throw TypeError,
        Unreliable.storedHost
          {| version := "1"; salt := "zz"; ciphertext := "02"; kdf := "Argon2" |})
  /\ TezosWallet.loadWallet "wallet.json" "correct horse"
       (Unreliable.storedHost
          {| version := "1"; salt := "07"; ciphertext := "02"; kdf := "Argon2" |})
     = (Throw DecryptionFailure,
        Unreliable.storedHost
          {| version := "1"; salt := "07"; ciphertext := "02"; kdf := "Argon2" |}).
Proof.
  split; [|split; [|split]].
  - exact (proj1 (@loadWallet_first_failure Sample.cryptoUtils Sample.json
                    "wallet.json" "correct horse" Sample.host TypeError)
             (lookup_empty "wallet.json")).
  - exact (proj1 (proj2 (@loadWallet_first_failure Sample.cryptoUtils Sample.json
                    "wallet.json" "correct horse" _ TypeError))
             (@stringify_wallet Sample.json
                {| version := "1"; salt := "zz"; ciphertext := "a1b"; kdf := "Argon2" |})
             {| version := "1"; salt := "zz"; ciphertext := "a1b"; kdf := "Argon2" |}
             (lookup_insert_eq _ _ _) eq_refl eq_refl).
  - exact (proj1 (proj2 (proj2 (@loadWallet_first_failure Sample.cryptoUtils Sample.json
                    "wallet.json" "correct horse" _ TypeError)))
             (@stringify_wallet Sample.json
                {| version := "1"; salt := "zz"; ciphertext := "02"; kdf := "Argon2" |})
             {| version := "1"; salt := "zz"; ciphertext := "02"; kdf := "Argon2" |}
             [x02] (lookup_insert_eq _ _ _) eq_refl eq_refl eq_refl).
  - exact (proj2 (proj2 (proj2 (@loadWallet_first_failure Sample.cryptoUtils Sample.json
                    "wallet.json" "correct horse" _ DecryptionFailure)))
             (@stringify_wallet Sample.json
                {| version := "1"; salt := "07"; ciphertext := "02"; kdf := "Argon2" |})
             {| version := "1"; salt := "07"; ciphertext := "02"; kdf := "Argon2" |}
             [x02] [x07] (lookup_insert_eq _ _ _) eq_refl eq_refl eq_refl eq_refl).
Defined.

Lemma saveWallet_write_refused_witness :
  fst (TezosWallet.saveWallet "wallet.json" {| identities := [Sample.alice] |}
         "correct horse" Unreliable.lockedHost)
  = Throw (External "EACCES").
Proof.
  assert (Hlocked : "wallet.json" ∈ locked Unreliable.lockedHost)
    by (unfold Unreliable.lockedHost; cbn [locked]; set_solver).
  exact (proj1 (@saveWallet_write_refused Sample.cryptoUtils Sample.json
                  "wallet.json" "correct horse" {| identities := [Sample.alice] |}
                  Unreliable.lockedHost Hlocked)).
Defined.

Lemma saveWallet_latest_wins_witness :
  fst (TezosWallet.loadWallet "wallet.json" "battery staple"
         (snd (TezosWallet.saveWallet "wallet.json" {| identities := [Sample.bob] |}
                 "battery staple"
                 (snd (TezosWallet.saveWallet "wallet.json"
                         {| identities := [Sample.alice] |} "correct horse"
                         Sample.host)))))
  = Normal {| identities := [Sample.bob] |}.
Proof.
  assert (Hfree : "wallet.json" ∉ locked Sample.host) by apply not_elem_of_empty.
  pose proof (saveWallet_latest_wins sample_cryptoUtils_laws sample_json_laws
                "wallet.json" "correct horse" "battery staple"
                {| identities := [Sample.alice] |} {| identities := [Sample.bob] |}
                Sample.host Hfree) as W.
  cbv zeta in W. destruct W as (Hload & _). now rewrite Hload.
Defined.

Lemma createWallet_overwrites_witness :
  fst (TezosWallet.createWallet "wallet.json" "battery staple"
         (snd (TezosWallet.saveWallet "wallet.json"
                 {| identities := [Sample.alice; Sample.bob] |} "correct horse"
                 Sample.host)))
  = Normal {| identities := [] |}.
Proof.
  assert (Hfree : "wallet.json" ∉ locked Sample.host) by apply not_elem_of_empty.
  pose proof (createWallet_overwrites sample_cryptoUtils_laws sample_json_laws
                "wallet.json" "correct horse" "battery staple"
                {| identities := [Sample.alice; Sample.bob] |} Sample.host Hfree) as W.
  cbv zeta in W. exact (proj1 W).
Defined.

Lemma saveWallet_independent_files_witness :
  fst (TezosWallet.loadWallet "alice.json" "correct horse"
         (snd (TezosWallet.saveWallet "bob.json" {| identities := [Sample.bob] |}
                 "battery staple"
                 (snd (TezosWallet.saveWallet "alice.json"
                         {| identities := [Sample.alice] |} "correct horse"
                         Sample.host)))))
  = Normal {| identities := [Sample.alice] |}.
Proof.
  assert (Hf : "alice.json" ∉ locked Sample.host) by apply not_elem_of_empty.
  assert (Hg : "bob.json" ∉ locked Sample.host) by apply not_elem_of_empty.
  assert (Hfg : "alice.json" <> "bob.json") by discriminate.
  pose proof (saveWallet_independent_files sample_cryptoUtils_laws sample_json_laws
                "alice.json" "bob.json" "correct horse" "battery staple"
                {| identities := [Sample.alice] |} {| identities := [Sample.bob] |}
                Sample.host Hfg Hf Hg) as W.
  cbv zeta in W. destruct W as (Hload & _). now rewrite Hload.
Defined.

End FurtherWitnesses.
